(** * godnslog: the web server's store routine, retention cleaner,
      callback dispatcher, shutdown and duplicate-key classifier

    A shallow embedding of [main/webserver.go].  Go values whose dynamic
    type the code inspects ([error], the cache's [interface{}] values, the
    records on the event stream) are inductive types with one constructor
    per dynamic type; a failed type assertion or a nil dereference is the
    [Panic] result; 64-bit integers are [Z] with the wrap-around written
    out; the cache is a finite map from keys to dynamic values. *)

From Stdlib Require Import ZArith Lia Ascii String.
From stdpp Require Import gmap strings list fin_maps pretty.

#[local] Set Warnings "-clear-no-such-hyp".

Local Open Scope string_scope.
Local Open Scope list_scope.
Local Open Scope Z_scope.

(** ** Results of Go code that may panic *)

Inductive result (A : Type) : Type :=
| Ok (a : A)
| Panic (msg : string).
Arguments Ok {A} a.
Arguments Panic {A} msg.

#[global] Instance result_ret : MRet result := λ A a, Ok a.

#[global] Instance result_bind : MBind result := λ A B k r,
  match r with
  | Ok a => k a
  | Panic m => Panic m
  end.

(** ** 64-bit integers *)

Definition wrap64 (z : Z) : Z := (z + 2 ^ 63) `mod` 2 ^ 64 - 2 ^ 63.

(** ** [fmt.Sprintf], for [int64] operands

    The format is scanned left to right.  [%v] and [%d] print the next
    operand in decimal, [%%] prints a percent sign, a verb with no operand
    left prints [%!v(MISSING)], a lone [%] at the end prints [%!(NOVERB)],
    and operands left over when the format is exhausted are reported as
    [%!(EXTRA int64=.., int64=..)].  The program uses no other verb; any
    other verb character is rendered in the bad-verb form. *)

Module fmt.

Definition operand (n : Z) : string := "int64=" +:+ pretty n.

Fixpoint join (l : list string) : string :=
  match l with
  | [] => ""
  | [s] => s
  | s :: l' => s +:+ ", " +:+ join l'
  end.

Definition extra (args : list Z) : string :=
  match args with
  | [] => ""
  | _ => "%!(EXTRA " +:+ join (operand <$> args) +:+ ")"
  end.

Definition verb (c : ascii) (a : Z) : string :=
  if bool_decide (c = "v"%char ∨ c = "d"%char) then pretty a
  else "%!" +:+ String c ("(" +:+ operand a +:+ ")").

Fixpoint Sprintf (format : string) (args : list Z) : string :=
  match format with
  | EmptyString => extra args
  | String c rest =>
      if bool_decide (c = "%"%char) then
        match rest with
        | EmptyString => "%!(NOVERB)" +:+ extra args
        | String c' rest' =>
            if bool_decide (c' = "%"%char) then String "%" (Sprintf rest' args)
            else
              match args with
              | [] => "%!" +:+ String c' ("(MISSING)" +:+ Sprintf rest' [])
              | a :: args' => verb c' a +:+ Sprintf rest' args'
              end
        end
      else String c (Sprintf rest args)
  end.

End fmt.

(** ** Native errors of the two storage drivers *)

Module sqlite3.
(** [sqlite3.Error]: the primary result code, the extended code and the
    message. *)
Record Error : Type := { Code : Z; ExtendedCode : Z; err : string }.
Definition ErrConstraint : Z := 19.
(** The zero value, which a failed [e, ok := err.(sqlite3.Error)] leaves
    in [e]. *)
Definition zero : Error := {| Code := 0; ExtendedCode := 0; err := "" |}.
End sqlite3.

Module mysql.
Record MySQLError : Type := { Number : Z; Message : string }.
End mysql.

(** A value of Go's interface type [error], by dynamic type.  A
    [*mysql.MySQLError] is a pointer and may be nil inside a non-nil
    interface value. *)
Inductive error : Type :=
| nil_error
| sqlite3_Error (e : sqlite3.Error)
| mysql_MySQLError (p : option mysql.MySQLError)
| other_error (msg : string).

(** ** The storage engine handle *)

Module xorm.
Record Engine : Type := { driverName : string }.
(** [engine.DriverName()] on a possibly nil [*xorm.Engine]. *)
Definition DriverName (orm : option Engine) : result string :=
  match orm with
  | Some e => Ok (driverName e)
  | None => Panic "nil pointer dereference"
  end.

(** A session, as far as [Find] reads its statement: the columns chosen
    with [Cols] and the table named with [Table], if one has been. *)
Record Session : Type := { columns : list string; table : option string }.

(** [engine.NewSession()]: a statement with no table. *)
Definition NewSession : Session := {| columns := []; table := None |}.

Definition Cols (cols : list string) (s : Session) : Session :=
  {| columns := columns s ++ cols; table := table s |}.

Definition ErrTableNotFound : string := "Table not found".

(** [session.Find(&ids, bean)] for [ids] a [[]int64].  [Find] queries the
    table the statement names; it takes the table from the element type of
    the slice only when that type is a struct, and the bean only adds to
    the condition.  With an [int64] element type and no [Table] before it,
    the statement names no table and [Find] returns [ErrTableNotFound]
    before it builds a query.  [users] is the table a statement that named
    the user table would read its ids from. *)
Definition Find (s : Session) (users : list Z) : string + list Z :=
  match table s with
  | None => inl ErrTableNotFound
  | Some _ => inr users
  end.
End xorm.

(** A handle on an engine of the given driver. *)
Definition engine (driver : string) : option xorm.Engine :=
  Some {| xorm.driverName := driver |}.

(** ** [IsDuplicate] (webserver.go, lines 308-330)

    The result is paired with the lines written to the log. *)

Definition IsDuplicate (orm : option xorm.Engine) (err : error)
  : list string * result bool :=
  match err with
  | nil_error => ([], Ok false)
  | _ =>
      match xorm.DriverName orm with
      | Ok driver =>
          if bool_decide (driver = "sqlite3") then
            let '(e, ok) :=
              match err with
              | sqlite3_Error e => (e, true)
              | _ => (sqlite3.zero, false)
              end in
            let log :=
              if ok then []
              else ["[IsDuplicate] convert sqlite error: typeof(err)"] in
            if bool_decide (sqlite3.Code e = sqlite3.ErrConstraint)
            then (log, Ok true) else (log, Ok false)
          else if bool_decide (driver = "mysql") then
            match err with
            | mysql_MySQLError (Some e) =>
                if bool_decide (mysql.Number e = 1062 ∨ mysql.Number e = 1169
                                ∨ mysql.Number e = 1022)
                then ([], Ok true) else ([], Ok false)
            | mysql_MySQLError None =>
                ([], Panic "invalid memory address or nil pointer dereference")
            | _ =>
                ([], Panic "interface conversion: error is not *mysql.MySQLError")
            end
          else ([], Ok false)
      | Panic m => ([], Panic m)
      end
  end.

(** ** Time *)

Module time.
(** A [Duration] is an [int64] count of nanoseconds. *)
Definition Duration : Type := Z.
Definition Second : Duration := 1000000000.
(** The conversion [time.Duration(x)] of an integer. *)
Definition of_int (x : Z) : Duration := wrap64 x.
(** The product of two [Duration]s. *)
Definition mul (a b : Duration) : Duration := wrap64 (a * b).

Inductive Location : Type := UTC | Local_.

(** An instant, in nanoseconds since the Unix epoch, and the location it
    is displayed in. *)
Record Time : Type := { unixNano : Z; loc : Location }.

Definition Add (t : Time) (d : Duration) : Time :=
  {| unixNano := unixNano t + d; loc := loc t |}.
Definition Local (t : Time) : Time :=
  {| unixNano := unixNano t; loc := Local_ |}.
(** The comparison [ctime < t], on instants. *)
Definition ltb (t u : Time) : bool := bool_decide (unixNano t < unixNano u).
End time.

(** ** Tables and stream records

    Of the [models] and of the records on the stream, the fields the web
    server reads or writes. *)

Module TblUser.
Record t : Type := { Id : Z; CleanInterval : Z }.
End TblUser.

Module TblDns.
Record t : Type :=
  { Uid : Z; Domain : string; Ip : string; Ctime : time.Time }.
End TblDns.

Module TblHttp.
Record t : Type :=
  { Uid : Z; Url : string; Ip : string; Ua : string; Data : string;
    Ctype : string; Method : string; Ctime : time.Time }.
End TblHttp.

Module DnsRecord.
Record t : Type :=
  { Uid : Z; Domain : string; Ip : string; Ctime : time.Time;
    Callback : string }.
End DnsRecord.

Module HttpRecord.
Record t : Type :=
  { Uid : Z; Url : string; Ip : string; Ua : string; Data : string;
    Ctype : string; Method : string; Ctime : time.Time;
    Callback : string }.
End HttpRecord.

(** A value received from [c.Output()], by dynamic type, as the type switch
    of the store routine sees it. *)
Inductive record : Type :=
| DnsRecord_ (d : DnsRecord.t)
| HttpRecord_ (h : HttpRecord.t)
| other_record.

(** A row handed to [InsertOne]. *)
Inductive row : Type :=
| TblDns_ (r : TblDns.t)
| TblHttp_ (r : TblHttp.t).

Record DB : Type :=
  { tbl_user : list TblUser.t;
    tbl_dns : list TblDns.t;
    tbl_http : list TblHttp.t }.

Definition AuthExpire : time.Duration := time.mul (24 * 3600) time.Second.
Definition DefaultCleanInterval : Z := 7200.
Definition DefaultQueryApiMaxItem : Z := 20.
Definition DefaultMaxCallbackErrorCount : Z := 5.

(** ** The cache *)

Module Cache.
(** A cached [interface{}] value, by dynamic type: an [int64], a
    [*models.TblUser] (possibly nil), or anything else. *)
Inductive value : Type :=
| VInt64 (n : Z)
| VUser (p : option TblUser.t)
| VOther (tag : string).

(** Modelled from the spec: the cache type is not part of
    [webserver.go].  [get(key) -> (value, found)]. *)
Definition Get (c : gmap string value) (k : string) : option value := c !! k.

(** Modelled from the spec: [delete(key)]. *)
Definition Delete (c : gmap string value) (k : string) : gmap string value :=
  delete k c.

(** Modelled from the spec: [incrementCounter(key, delta)] adds [delta]
    to the counter under [key] in one atomic step; an absent counter is
    equivalent to zero.  The counter is an [int64]; a value of another
    type is left as it is (the caller discards what the call returns). *)
Definition IncrementInt64 (c : gmap string value) (k : string) (n : Z)
  : gmap string value :=
  match c !! k with
  | None => <[k := VInt64 (wrap64 n)]> c
  | Some (VInt64 v) => <[k := VInt64 (wrap64 (v + n))]> c
  | Some _ => c
  end.
End Cache.

(** ** The retention cleaner: [doClean] (lines 89-115) *)

Definition userKey (id : Z) : string := fmt.Sprintf "id.user" [id].

(** [session.Where(`uid=?`, id).And(`ctime<?`, t).Delete(..)]: the rows
    that stay are those the condition does not select.  The storage makes
    the comparison on the column as it keeps it; it is taken here on the
    instants, which is the same for times in whole seconds. *)
Definition delete_dns (id : Z) (t : time.Time) (rows : list TblDns.t)
  : list TblDns.t :=
  filter (λ r, ¬ (TblDns.Uid r = id ∧ time.ltb (TblDns.Ctime r) t)) rows.

Definition delete_http (id : Z) (t : time.Time) (rows : list TblHttp.t)
  : list TblHttp.t :=
  filter (λ r, ¬ (TblHttp.Uid r = id ∧ time.ltb (TblHttp.Ctime r) t)) rows.

(** The bound of one user: [now.Add(Duration(-1) * Duration(interval) *
    Second)]. *)
Definition cutoff (now : time.Time) (interval : Z) : time.Time :=
  time.Add now
    (time.mul (time.mul (time.of_int (-1)) (time.of_int interval)) time.Second).

(** One iteration of the loop over the user ids. *)
Definition cleanUser (c : gmap string Cache.value) (now : time.Time)
    (db : DB) (id : Z) : result DB :=
  match Cache.Get c (userKey id) with
  | Some (Cache.VUser (Some user)) =>
      let t := cutoff now (TblUser.CleanInterval user) in
      Ok {| tbl_user := tbl_user db;
            tbl_dns := delete_dns id t (tbl_dns db);
            tbl_http := delete_http id t (tbl_http db) |}
  | Some (Cache.VUser None) =>
      Panic "invalid memory address or nil pointer dereference"
  | Some _ => Panic "interface conversion: interface {} is not *models.TblUser"
  | None => Ok db
  end.

Fixpoint cleanUsers (c : gmap string Cache.value) (now : time.Time)
    (ids : list Z) (db : DB) : result DB :=
  match ids with
  | [] => Ok db
  | id :: ids' => db' ← cleanUser c now db id; cleanUsers c now ids' db'
  end.

(** [doClean]: the session is a new one, so that the [Find] of line 95
    is made on a statement without a table; when [Find] returns an error
    it is logged and [doClean] returns (lines 96-99). *)
Definition doClean (driver : string) (c : gmap string Cache.value)
    (now : time.Time) (db : DB) : result DB :=
  let session := xorm.NewSession in
  match xorm.Find (xorm.Cols ["id"] session) (TblUser.Id <$> tbl_user db) with
  | inl err => Ok db
  | inr ids =>
      let now := if bool_decide (driver = "sqlite") then time.Local now else now in
      cleanUsers c now ids db
  end.

(** ** The retrying HTTP client

    [retryablehttp.Client] with its retry settings and its two hooks, as
    [NewClient] fills them in, and [Client.Do]: it tries the request, asks
    [CheckRetry] whether the attempt is to be repeated, stops when
    [RetryMax] retries have been made, and otherwise sleeps for what
    [Backoff] returns for the attempt number and the reply.  [net i] is
    what the [i]-th try meets on the network. *)

Module retryablehttp.

(** A [*Request] is a pointer; [None] is nil. *)
Record Request : Type :=
  { Method : string; URL : string; Body : option string }.

(** [NewRequest] returns [(nil, err)] when the URL cannot be parsed;
    [urlErr] is that error, if any. *)
Definition NewRequest (method url : string) (body : option string)
    (urlErr : option string) : option Request :=
  match urlErr with
  | Some _ => None
  | None => Some {| Method := method; URL := url; Body := body |}
  end.

(** What one try meets: an error that may pass (no connection, a
    timeout), an error that will not (too many redirects, a scheme that
    is not supported, a certificate of unknown authority), or a response,
    of which the client reads the status code and the seconds of a
    [Retry-After] header. *)
Inductive attempt : Type :=
| TransportError (msg : string)
| PermanentError (msg : string)
| Response (StatusCode : Z) (RetryAfter : option Z).

(** What [Do] returns: a response and no error, or an error. *)
Inductive do_result : Type :=
| DoResponse (StatusCode : Z)
| DoError (msg : string).

Definition of_attempt (a : attempt) : do_result :=
  match a with
  | TransportError m | PermanentError m => DoError m
  | Response st _ => DoResponse st
  end.

(** [DefaultRetryPolicy]: an error that may pass is tried again, and so
    is a response with status 429, with status 0 or with a status from
    500 on other than 501. *)
Definition DefaultRetryPolicy (a : attempt) : bool :=
  match a with
  | TransportError _ => true
  | PermanentError _ => false
  | Response st _ => bool_decide (st = 429 ∨ st = 0 ∨ (500 ≤ st ∧ st ≠ 501))
  end.

(** [DefaultBackoff]: after a response with status 429 or 503 that has a
    [Retry-After] header, that many seconds; otherwise
    [min * 2^attemptNum], capped at [max]. *)
Definition DefaultBackoff (min max : time.Duration) (attemptNum : nat)
    (resp : attempt) : time.Duration :=
  let mult := 2 ^ Z.of_nat attemptNum * min in
  let sleep := if bool_decide (max < mult) then max else mult in
  match resp with
  | Response st (Some s) =>
      if bool_decide (st = 429 ∨ st = 503)
      then time.mul time.Second (time.of_int s)
      else sleep
  | _ => sleep
  end.

Record Client : Type :=
  { RetryWaitMin : time.Duration;
    RetryWaitMax : time.Duration;
    RetryMax : Z;
    CheckRetry : attempt → bool;
    Backoff : time.Duration → time.Duration → nat → attempt → time.Duration }.

Definition NewClient : Client :=
  {| RetryWaitMin := time.mul 1 time.Second;
     RetryWaitMax := time.mul 30 time.Second;
     RetryMax := 4;
     CheckRetry := DefaultRetryPolicy;
     Backoff := DefaultBackoff |}.

Record trace : Type :=
  { tries : nat; waits : list time.Duration; returned : do_result }.

Section Do.
Variable c : Client.
Variable net : nat → attempt.

(** The loop [for i := 0; ; i++], with [retries = RetryMax - i]. *)
Fixpoint loop (retries i : nat) : trace :=
  if CheckRetry c (net i) then
    match retries with
    | O => {| tries := 1; waits := [];
              returned := DoError "giving up after RetryMax+1 attempts" |}
    | S r =>
        let rest := loop r (S i) in
        {| tries := S (tries rest);
           waits := Backoff c (RetryWaitMin c) (RetryWaitMax c) i (net i)
                    :: waits rest;
           returned := returned rest |}
    end
  else {| tries := 1; waits := []; returned := of_attempt (net i) |}.

Definition attempts : trace := loop (Z.to_nat (RetryMax c)) 0.

(** [c.Do(req)]: the fields of [req] are read before the first try, so a
    nil request panics. *)
Definition Do (req : option Request) : result trace :=
  match req with
  | None => Panic "invalid memory address or nil pointer dereference"
  | Some _ => Ok attempts
  end.
End Do.

End retryablehttp.

(** The client the store routine builds (lines 123-127). *)
Definition client : retryablehttp.Client :=
  let client := retryablehttp.NewClient in
  {| retryablehttp.RetryMax := 3;
     retryablehttp.RetryWaitMin := time.mul 5 time.Second;
     retryablehttp.RetryWaitMax := time.mul 60 time.Second;
     retryablehttp.CheckRetry := retryablehttp.CheckRetry client;
     retryablehttp.Backoff := retryablehttp.Backoff client |}.

(** ** The callback: [dnsCallBack] (lines 129-142)

    [urlErr] is the error of [NewRequest], if any, and [net] what the
    tries of [client.Do] meet.  The error of [NewRequest] is overwritten
    before it is read (line 132), so the request goes to [client.Do] as
    it is, nil or not.  The result is the request handed to the client,
    the tries the client made and the cache after the call. *)

Definition errorCountKey (uid : Z) : string := fmt.Sprintf "%v.errcount" [uid].

Definition dnsCallBack (urlErr : option string)
    (net : nat → retryablehttp.attempt)
    (rcd : DnsRecord.t) (c : gmap string Cache.value)
  : result (option retryablehttp.Request * retryablehttp.trace
            * gmap string Cache.value) :=
  let req := retryablehttp.NewRequest "POST" (DnsRecord.Callback rcd) None
               urlErr in
  resp_err ← retryablehttp.Do client net req;
  let errorCountKey := errorCountKey (DnsRecord.Uid rcd) in
  match retryablehttp.returned resp_err with
  | retryablehttp.DoError _ =>
      Ok (req, resp_err, Cache.IncrementInt64 c errorCountKey 1)
  | retryablehttp.DoResponse _ =>
      Ok (req, resp_err, Cache.Delete c errorCountKey)
  end.

(** The user's failure counter; absence is zero. *)
Definition FailureCounter (c : gmap string Cache.value) (uid : Z) : Z :=
  match Cache.Get c (errorCountKey uid) with
  | Some (Cache.VInt64 v) => v
  | _ => 0
  end.

(** ** The running web server

    The store routine, the goroutines it starts and [Shutdown] run
    concurrently; an execution is a sequence of atomic actions on the
    state below.  A goroutine that touches the shared state once (a
    callback, after [client.Do] has returned) is one action. *)

Inductive routine_status : Type := Looping | Returned.

(** [Shutdown] has not been called, is blocked on [<-self.storeQuit], is
    about to close the engine, or has returned; [err] is what
    [self.s.Shutdown(ctx)] returned. *)
Inductive shutdown_pc : Type :=
| NotCalled
| AwaitStoreQuit (err : option string)
| ClosingOrm (err : option string)
| ShutdownReturned (err : option string).

Record State : Type := mkState {
  (* [self.orm.DriverName()]. *)
  driver : string;
  (* The tables. *)
  db : DB;
  (* The rows inserted through the store routine's session, in order. *)
  stored : list row;
  (* [self.cache]. *)
  cache : gmap string Cache.value;
  (* [c.Output()]: the events sent and not yet received, oldest first. *)
  output : list record;
  (* The stream has been closed by its source. *)
  output_closed : bool;
  (* Where [RunStoreRoutine] is. *)
  routine : routine_status;
  (* [self.storeQuit] has been closed. *)
  storeQuit : bool;
  (* The goroutines running [dnsCallBack], in spawning order. *)
  callbacks : list DnsRecord.t;
  (* The callbacks that have finished, oldest first: the record, the
     request handed to [client.Do] and what it returned. *)
  finished :
    list (DnsRecord.t * option retryablehttp.Request
          * retryablehttp.do_result);
  (* The goroutines about to run [doClean]. *)
  cleaners : nat;
  (* The counter of [self.wg]. *)
  wg : Z;
  (* [self.s]: nil, or a server that is listening ([true]) or shut
     down. *)
  server : option bool;
  (* [self.orm.Close()] has been called. *)
  orm_closed : bool;
  (* Where [Shutdown] is. *)
  shutdown : shutdown_pc;
  (* The process has died of a panic or of [logrus.Fatalf]. *)
  crashed : option string
}.

Definition set_db (v : DB) (s : State) : State :=
  mkState (driver s) v (stored s) (cache s) (output s) (output_closed s)
    (routine s) (storeQuit s) (callbacks s) (finished s) (cleaners s) (wg s)
    (server s) (orm_closed s) (shutdown s) (crashed s).

Definition set_stored (v : list row) (s : State) : State :=
  mkState (driver s) (db s) v (cache s) (output s) (output_closed s)
    (routine s) (storeQuit s) (callbacks s) (finished s) (cleaners s) (wg s)
    (server s) (orm_closed s) (shutdown s) (crashed s).

Definition set_cache (v : gmap string Cache.value) (s : State) : State :=
  mkState (driver s) (db s) (stored s) v (output s) (output_closed s)
    (routine s) (storeQuit s) (callbacks s) (finished s) (cleaners s) (wg s)
    (server s) (orm_closed s) (shutdown s) (crashed s).

Definition set_output (v : list record) (s : State) : State :=
  mkState (driver s) (db s) (stored s) (cache s) v (output_closed s)
    (routine s) (storeQuit s) (callbacks s) (finished s) (cleaners s) (wg s)
    (server s) (orm_closed s) (shutdown s) (crashed s).

Definition set_output_closed (v : bool) (s : State) : State :=
  mkState (driver s) (db s) (stored s) (cache s) (output s) v (routine s)
    (storeQuit s) (callbacks s) (finished s) (cleaners s) (wg s) (server s)
    (orm_closed s) (shutdown s) (crashed s).

Definition set_routine (v : routine_status) (s : State) : State :=
  mkState (driver s) (db s) (stored s) (cache s) (output s)
    (output_closed s) v (storeQuit s) (callbacks s) (finished s)
    (cleaners s) (wg s) (server s) (orm_closed s) (shutdown s) (crashed s).

Definition set_storeQuit (v : bool) (s : State) : State :=
  mkState (driver s) (db s) (stored s) (cache s) (output s)
    (output_closed s) (routine s) v (callbacks s) (finished s) (cleaners s)
    (wg s) (server s) (orm_closed s) (shutdown s) (crashed s).

Definition set_callbacks (v : list DnsRecord.t) (s : State) : State :=
  mkState (driver s) (db s) (stored s) (cache s) (output s)
    (output_closed s) (routine s) (storeQuit s) v (finished s) (cleaners s)
    (wg s) (server s) (orm_closed s) (shutdown s) (crashed s).

Definition set_finished
    (v : list (DnsRecord.t * option retryablehttp.Request
               * retryablehttp.do_result))
    (s : State) : State :=
  mkState (driver s) (db s) (stored s) (cache s) (output s)
    (output_closed s) (routine s) (storeQuit s) (callbacks s) v (cleaners s)
    (wg s) (server s) (orm_closed s) (shutdown s) (crashed s).

Definition set_cleaners (v : nat) (s : State) : State :=
  mkState (driver s) (db s) (stored s) (cache s) (output s)
    (output_closed s) (routine s) (storeQuit s) (callbacks s) (finished s) v
    (wg s) (server s) (orm_closed s) (shutdown s) (crashed s).

Definition set_wg (v : Z) (s : State) : State :=
  mkState (driver s) (db s) (stored s) (cache s) (output s)
    (output_closed s) (routine s) (storeQuit s) (callbacks s) (finished s)
    (cleaners s) v (server s) (orm_closed s) (shutdown s) (crashed s).

Definition set_server (v : option bool) (s : State) : State :=
  mkState (driver s) (db s) (stored s) (cache s) (output s)
    (output_closed s) (routine s) (storeQuit s) (callbacks s) (finished s)
    (cleaners s) (wg s) v (orm_closed s) (shutdown s) (crashed s).

Definition set_orm_closed (v : bool) (s : State) : State :=
  mkState (driver s) (db s) (stored s) (cache s) (output s)
    (output_closed s) (routine s) (storeQuit s) (callbacks s) (finished s)
    (cleaners s) (wg s) (server s) v (shutdown s) (crashed s).

Definition set_shutdown (v : shutdown_pc) (s : State) : State :=
  mkState (driver s) (db s) (stored s) (cache s) (output s)
    (output_closed s) (routine s) (storeQuit s) (callbacks s) (finished s)
    (cleaners s) (wg s) (server s) (orm_closed s) v (crashed s).

Definition set_crashed (v : option string) (s : State) : State :=
  mkState (driver s) (db s) (stored s) (cache s) (output s)
    (output_closed s) (routine s) (storeQuit s) (callbacks s) (finished s)
    (cleaners s) (wg s) (server s) (orm_closed s) (shutdown s) v.

Definition crash (msg : string) (s : State) : State := set_crashed (Some msg) s.

(** [self.wg.Add(1); go dnsCallBack(d)] *)
Definition go_dnsCallBack (d : DnsRecord.t) (s : State) : State :=
  set_callbacks (callbacks s ++ [d]) (set_wg (wg s + 1) s).

(** [session.InsertOne(&models.TblDns{..})], when it succeeds. *)
Definition row_of (d : DnsRecord.t) : TblDns.t :=
  {| TblDns.Uid := DnsRecord.Uid d;
     TblDns.Domain := DnsRecord.Domain d;
     TblDns.Ip := DnsRecord.Ip d;
     TblDns.Ctime := DnsRecord.Ctime d |}.

Definition InsertOne (row : TblDns.t) (s : State) : State :=
  set_stored (stored s ++ [TblDns_ row])
    (set_db {| tbl_user := tbl_user (db s);
               tbl_dns := tbl_dns (db s) ++ [row];
               tbl_http := tbl_http (db s) |} s).

(** The body of [case rcd, ok := <-c.Output()] for a received value
    (lines 170-216).  [insertErr] is the error of [InsertOne], if any. *)
Definition store (rcd : record) (insertErr : option string) (s : State)
  : State :=
  match rcd with
  | DnsRecord_ d =>
      match insertErr with
      | Some e => crash ("[web.go::storeRoutine] orm.InsertOne: " +:+ e) s
      | None =>
          let s := InsertOne (row_of d) s in
          if bool_decide (DnsRecord.Callback d ≠ "" ∧ 0 < DnsRecord.Uid d) then
            match Cache.Get (cache s) (errorCountKey (DnsRecord.Uid d)) with
            | Some (Cache.VInt64 v) =>
                if bool_decide (DefaultMaxCallbackErrorCount ≤ v) then s
                else go_dnsCallBack d s
            | Some _ => crash "interface conversion: interface {} is not int64" s
            | None => go_dnsCallBack d s
            end
          else s
      end
  | HttpRecord_ h => s
  | other_record => s
  end.

(** What wakes the [select] of the store routine (lines 158-217): the
    ticker, a value of the stream (with the error of its [InsertOne], if
    any), or the closed and drained stream. *)
Inductive wake : Type :=
| ticker_C
| Output_value (insertErr : option string)
| Output_closed.

(** One iteration of the loop of [RunStoreRoutine] (lines 156-220), or
    [None] when the [select] cannot be woken that way.  On the closed
    stream the loop is left and [self.storeQuit] is closed. *)
Definition RunStoreRoutine (w : wake) (s : State) : option State :=
  match routine s with
  | Looping =>
      match w with
      | ticker_C => Some (set_cleaners (S (cleaners s)) (set_wg (wg s + 1) s))
      | Output_value insertErr =>
          match output s with
          | rcd :: rest => Some (store rcd insertErr (set_output rest s))
          | [] => None
          end
      | Output_closed =>
          match output s, output_closed s with
          | [], true =>
              if storeQuit s then Some (crash "close of closed channel" s)
              else Some (set_storeQuit true (set_routine Returned s))
          | _, _ => None
          end
      end
  | Returned => None
  end.

(** [Shutdown] (lines 299-306), one statement at a time. *)
Inductive shutdown_stmt : Type :=
| s_Shutdown (err : option string)
| recv_storeQuit
| orm_Close.

Definition Shutdown (st : shutdown_stmt) (s : State) : option State :=
  match st, shutdown s with
  | s_Shutdown err, NotCalled =>
      match server s with
      | Some _ =>
          Some (set_shutdown (AwaitStoreQuit err) (set_server (Some false) s))
      | None =>
          Some (crash "invalid memory address or nil pointer dereference" s)
      end
  | recv_storeQuit, AwaitStoreQuit err =>
      if storeQuit s then Some (set_shutdown (ClosingOrm err) s) else None
  | orm_Close, ClosingOrm err =>
      Some (set_shutdown (ShutdownReturned err) (set_orm_closed true s))
  | _, _ => None
  end.

Inductive action : Type :=
| Send (rcd : record)
| CloseOutput
| StoreRoutine (w : wake)
| CallbackDone (i : nat) (urlErr : option string)
    (net : nat → retryablehttp.attempt)
| CleanerRun (now : time.Time)
| InShutdown (st : shutdown_stmt).

(** The effect of an action, or [None] when the action cannot happen in
    the state; nothing happens in a process that has died.

    - [Send], [CloseOutput]: the event source puts a value on the stream,
      or closes it; nothing is sent on a closed stream.
    - [StoreRoutine w]: one iteration of the store routine.
    - [CallbackDone i urlErr net]: the [i]-th running callback runs to
      its end, with [urlErr] from [NewRequest] and with [net] on the
      network; a panic in it kills the process, after the deferred
      [self.wg.Done()].
    - [CleanerRun now]: a cleaner goroutine runs [doClean] at [now] and
      finishes.
    - [InShutdown st]: [Shutdown] executes its next statement. *)
Definition step (s : State) (a : action) : option State :=
  if crashed s is Some _ then None else
  match a with
  | Send rcd =>
      if output_closed s then None
      else Some (set_output (output s ++ [rcd]) s)
  | CloseOutput =>
      if output_closed s then None else Some (set_output_closed true s)
  | StoreRoutine w => RunStoreRoutine w s
  | CallbackDone i urlErr net =>
      match callbacks s !! i with
      | Some rcd =>
          let done := set_wg (wg s - 1) (set_callbacks (delete i (callbacks s)) s) in
          match dnsCallBack urlErr net rcd (cache s) with
          | Ok (req, resp_err, c) =>
              Some (set_finished
                      (finished s ++ [(rcd, req, retryablehttp.returned resp_err)])
                      (set_cache c done))
          | Panic m => Some (crash m done)
          end
      | None => None
      end
  | CleanerRun now =>
      match cleaners s with
      | S n =>
          let done := set_wg (wg s - 1) (set_cleaners n s) in
          match doClean (driver s) (cache s) now (db s) with
          | Ok db' => Some (set_db db' done)
          | Panic m => Some (crash m done)
          end
      | O => None
      end
  | InShutdown st => Shutdown st s
  end.

(** An execution: the actions of a schedule, one after the other. *)
Fixpoint run (s : State) (acts : list action) : option State :=
  match acts with
  | [] => Some s
  | a :: acts' => s' ← step s a; run s' acts'
  end.

(** The values a schedule puts on the stream, and the rows the store
    routine inserts for a list of received values. *)
Definition sent (acts : list action) : list record :=
  omap (λ a, if a is Send rcd then Some rcd else None) acts.

Definition stored_rows (rcds : list record) : list row :=
  omap (λ rcd, if rcd is DnsRecord_ d then Some (TblDns_ (row_of d)) else None)
    rcds.

(** The rows as the specification has them: one row for every interaction
    event, of either variant. *)
Definition row_of_http (h : HttpRecord.t) : TblHttp.t :=
  {| TblHttp.Uid := HttpRecord.Uid h;
     TblHttp.Url := HttpRecord.Url h;
     TblHttp.Ip := HttpRecord.Ip h;
     TblHttp.Ua := HttpRecord.Ua h;
     TblHttp.Data := HttpRecord.Data h;
     TblHttp.Ctype := HttpRecord.Ctype h;
     TblHttp.Method := HttpRecord.Method h;
     TblHttp.Ctime := HttpRecord.Ctime h |}.

Definition spec_rows (rcds : list record) : list row :=
  omap (λ rcd, match rcd with
               | DnsRecord_ d => Some (TblDns_ (row_of d))
               | HttpRecord_ h => Some (TblHttp_ (row_of_http h))
               | other_record => None
               end) rcds.

(** The number of failures of callbacks of user [uid] at the end of the
    log of finished callbacks, after the last callback of that user that
    got a response. *)
Definition trailing_failures (uid : Z)
    (log : list (DnsRecord.t * option retryablehttp.Request
                 * retryablehttp.do_result))
  : nat :=
  foldl (λ n e,
           if bool_decide (DnsRecord.Uid e.1.1 = uid) then
             match e.2 with
             | retryablehttp.DoError _ => S n
             | retryablehttp.DoResponse _ => O
             end
           else n) O log.

(** No [InsertOne] of the schedule fails. *)
Definition inserts_succeed (acts : list action) : Prop :=
  ∀ e, StoreRoutine (Output_value (Some e)) ∉ acts.

(** A state in which the server has been set up and started: the engine
    is open, the server is listening, the store routine is in its loop
    and nothing has been signalled. *)
Definition started (s : State) : Prop :=
  routine s = Looping ∧ storeQuit s = false ∧ shutdown s = NotCalled
  ∧ orm_closed s = false ∧ server s = Some true ∧ crashed s = None.

(** The store routine and [Shutdown] are coordinated: [self.storeQuit] is
    closed exactly when the routine has left its loop, which it does on
    the closed and drained stream only; there is a server, which
    [Shutdown] has stopped once it is past its first statement;
    [Shutdown] is past its second statement only if [self.storeQuit] is
    closed, and the engine is closed exactly when [Shutdown] has
    returned. *)
Definition coordinated (s : State) : Prop :=
  server s ≠ None
  ∧ (storeQuit s = true ↔ routine s = Returned)
  ∧ (routine s = Returned → output s = [] ∧ output_closed s = true)
  ∧ (orm_closed s = true ↔ ∃ err, shutdown s = ShutdownReturned err)
  ∧ match shutdown s with
    | NotCalled => True
    | AwaitStoreQuit _ => server s = Some false
    | ClosingOrm _ | ShutdownReturned _ =>
        server s = Some false ∧ storeQuit s = true
    end.






(** The actions by which the store routine works off the stream and by
    which [Shutdown] advances. *)
Definition progress (a : action) : bool :=
  match a with
  | StoreRoutine (Output_value _) | StoreRoutine Output_closed
  | InShutdown _ => true
  | _ => false
  end.

(** The failure counter of [uid] agrees with the log of finished
    callbacks: it is absent when the last callback of the user got a
    response, or when none has finished, and otherwise counts the failures
    since. *)
Definition counter_agrees (uid : Z) (s : State) : Prop :=
  Cache.Get (cache s) (errorCountKey uid)
  = match trailing_failures uid (finished s) with
    | O => None
    | S n => Some (Cache.VInt64 (wrap64 (Z.of_nat (S n))))
    end.

(** ** Sample data *)

Module example.

(** A time of day on the first day of the epoch, in UTC. *)
Definition clock (h m sec : Z) : time.Time :=
  {| time.unixNano := (h * 3600 + m * 60 + sec) * time.Second;
     time.loc := time.UTC |}.

Definition dns (uid : Z) (ctime : time.Time) (callback : string)
  : DnsRecord.t :=
  {| DnsRecord.Uid := uid; DnsRecord.Domain := "x.u7.example.org";
     DnsRecord.Ip := "192.0.2.1"; DnsRecord.Ctime := ctime;
     DnsRecord.Callback := callback |}.

Definition http (uid : Z) (ctime : time.Time) : HttpRecord.t :=
  {| HttpRecord.Uid := uid; HttpRecord.Url := "/log/u7";
     HttpRecord.Ip := "192.0.2.1"; HttpRecord.Ua := "curl";
     HttpRecord.Data := ""; HttpRecord.Ctype := "";
     HttpRecord.Method := "GET"; HttpRecord.Ctime := ctime;
     HttpRecord.Callback := "" |}.

Definition http_row (uid : Z) (ctime : time.Time) : TblHttp.t :=
  row_of_http (http uid ctime).

(** A server that has just been started, with empty tables, an empty
    cache and an empty stream. *)
Definition server0 : State :=
  {| driver := "sqlite3";
     db := {| tbl_user := []; tbl_dns := []; tbl_http := [] |};
     stored := []; cache := ∅; output := []; output_closed := false;
     routine := Looping; storeQuit := false; callbacks := [];
     finished := []; cleaners := 0; wg := 0; server := Some true;
     orm_closed := false; shutdown := NotCalled; crashed := None |}.

(** User 7 with the default retention interval, cached under the key the
    cleaner looks up, and a table with one row older and one row younger
    than two hours at noon. *)
Definition user7 : TblUser.t :=
  {| TblUser.Id := 7; TblUser.CleanInterval := DefaultCleanInterval |}.

Definition profiles : gmap string Cache.value :=
  {[ userKey 7 := Cache.VUser (Some user7) ]}.

Definition tables : DB :=
  {| tbl_user := [user7];
     tbl_dns := [row_of (dns 7 (clock 9 59 59) ""); row_of (dns 7 (clock 10 0 1) "")];
     tbl_http := [http_row 7 (clock 9 59 59); http_row 7 (clock 10 0 1)] |}.

(** One DNS record and one HTTP record are put on the stream, the stream
    is closed and the store routine works it off. *)
Definition both_variants : list action :=
  [Send (DnsRecord_ (dns 7 (clock 9 0 0) ""));
   Send (HttpRecord_ (http 7 (clock 9 0 1)));
   CloseOutput;
   StoreRoutine (Output_value None);
   StoreRoutine (Output_value None);
   StoreRoutine Output_closed].

(** Two records of user 7 with a callback URL are stored and dispatched,
    and both callbacks fail. *)
Definition refused : nat → retryablehttp.attempt :=
  λ _, retryablehttp.TransportError "connection refused".

Definition replies (status : Z) : nat → retryablehttp.attempt :=
  λ _, retryablehttp.Response status None.

Definition two_failures : list action :=
  [Send (DnsRecord_ (dns 7 (clock 9 0 0) "http://hook.example.org/"));
   Send (DnsRecord_ (dns 7 (clock 9 0 1) "http://hook.example.org/"));
   StoreRoutine (Output_value None);
   StoreRoutine (Output_value None);
   CallbackDone 0 None refused;
   CallbackDone 0 None refused].

(** Six records of user 7 with a callback URL are stored and dispatched,
    and the first five callbacks fail: the counter is at the cap while the
    sixth callback is still running. *)
Definition hook (sec : Z) : record :=
  DnsRecord_ (dns 7 (clock 9 0 sec) "http://hook.example.org/").

Definition tripped : list action :=
  (Send <$> (hook <$> [0; 1; 2; 3; 4; 5]))
  ++ replicate 6 (StoreRoutine (Output_value None))
  ++ replicate 5 (CallbackDone 0 None refused).

(** A seventh record arrives and is stored. *)
Definition seventh : list action :=
  [Send (hook 6); StoreRoutine (Output_value None)].

(** The sixth callback gets a response, and an eighth record arrives. *)
Definition sixth_succeeds : list action :=
  [CallbackDone 0 None (replies 200)].

Definition eighth : list action :=
  [Send (hook 7); StoreRoutine (Output_value None)].

(** [Shutdown] is called while the stream is still open. *)
Definition shutdown_too_early : list action :=
  [InShutdown (s_Shutdown None)].


(** The profile of user 7 cached under the key "7.user", and a cache in
    which the key the cleaner looks up holds a counter. *)
Definition miskeyed : gmap string Cache.value :=
  {[ "7.user" := Cache.VUser (Some user7) ]}.

Definition mistyped : gmap string Cache.value :=
  {[ userKey 7 := Cache.VInt64 1 ]}.

(** A record of user 7 is stored and dispatched, and the stream is
    closed and found closed while the callback is running; then the
    callback fails. *)
Definition returned_with_callback : list action :=
  [Send (hook 0); StoreRoutine (Output_value None); CloseOutput;
   StoreRoutine Output_closed].

Definition late_callback : list action :=
  [CallbackDone 0 None refused].

(** The four steps of a shutdown on a closed and drained stream. *)
Definition shutdown_steps (err : option string) : list action :=
  [InShutdown (s_Shutdown err); StoreRoutine Output_closed;
   InShutdown recv_storeQuit; InShutdown orm_Close].

(** The ticker fires and the cleaner runs at noon. *)
Definition cleanup : list action :=
  [StoreRoutine ticker_C; CleanerRun (clock 12 0 0)].

(** A record whose callback URL has a bracket that is not closed is
    stored and dispatched, and [NewRequest] rejects the URL. *)
Definition bad_url : list action :=
  [Send (DnsRecord_ (dns 7 (clock 9 0 0) "http://[::1"));
   StoreRoutine (Output_value None);
   CallbackDone 0 (Some "missing ']' in host") refused].

(** [n] records like [d] are put on the stream, the store routine
    handles them all, and then the [n] callbacks fail one after the
    other. *)
Definition pile_up (d : DnsRecord.t) (n : nat) (msg : string) : list action :=
  (Send <$> replicate n (DnsRecord_ d))
  ++ replicate n (StoreRoutine (Output_value None))
  ++ replicate n
       (CallbackDone 0 None (λ _, retryablehttp.TransportError msg)).

End example.

(** ** What one cleanup deletes

    Whether the iteration of [doClean] for user [id] deletes a row of user
    [uid] created at [ctime], and whether some iteration of the loop over
    [ids] does. *)

Definition expired (c : gmap string Cache.value) (now : time.Time)
    (id uid : Z) (ctime : time.Time) : bool :=
  match Cache.Get c (userKey id) with
  | Some (Cache.VUser (Some user)) =>
      bool_decide (uid = id)
      && time.ltb ctime (cutoff now (TblUser.CleanInterval user))
  | _ => false
  end.

Definition swept (c : gmap string Cache.value) (now : time.Time)
    (ids : list Z) (uid : Z) (ctime : time.Time) : bool :=
  existsb (λ id, expired c now id uid ctime) ids.

(** ** [Run] (lines 222-297)

    The router: a group has a base path and the handlers its routes
    inherit; a route is registered with the handlers of its group at that
    moment, followed by its own.  [joinPaths] is given for base paths and
    relative paths without dot segments and doubled slashes, which is what
    [Run] uses. *)

Module Handler.
Inductive t : Type :=
| Logger | Recovery | WrapHandler | Serve | index
| userLogin | authHandler | userLogout | userInfo | userNav
| getDnsRecord | getHttpRecord | delDnsRecord | delHttpRecord
| getAppSetting | setAppSetting | getSecuritySetting | setSecuritySetting
| verifyAdminPermission | delUser | addUser | setUser | userList
| apiAuthHandler | queryDnsRecord | queryHttpRecord
| xss | phpRFI | record.

#[global] Instance eq_dec : EqDecision t.
Proof. solve_decision. Defined.
End Handler.

Module gin.

Record route : Type :=
  { method : string; path : string; handlers : list Handler.t }.

Record RouterGroup : Type :=
  { basePath : string; Handlers : list Handler.t }.

(** The engine: its root group, the routes registered so far and the
    handlers for requests that match no route. *)
Record Engine : Type :=
  { root : RouterGroup; routes : list route; noRoute : list Handler.t }.

Fixpoint ltrim (s : string) : string :=
  match s with
  | String c s' => if bool_decide (c = "/"%char) then ltrim s' else s
  | EmptyString => s
  end.

Definition rtrim (s : string) : string := String.rev (ltrim (String.rev s)).

Definition joinPaths (absolutePath relativePath : string) : string :=
  if bool_decide (relativePath = "") then absolutePath
  else rtrim absolutePath +:+ "/" +:+ ltrim relativePath.

(** [gin.Default()]: a new engine that uses the logger and the recovery
    middleware. *)
Definition Default : Engine :=
  {| root := {| basePath := "/";
                Handlers := [Handler.Logger; Handler.Recovery] |};
     routes := []; noRoute := [] |}.

Definition Use (hs : list Handler.t) (r : Engine) : Engine :=
  {| root := {| basePath := basePath (root r);
                Handlers := Handlers (root r) ++ hs |};
     routes := routes r; noRoute := noRoute r |}.

Definition NoRoute (hs : list Handler.t) (r : Engine) : Engine :=
  {| root := root r; routes := routes r; noRoute := hs |}.

Definition Group (g : RouterGroup) (relativePath : string)
    (hs : list Handler.t) : RouterGroup :=
  {| basePath := joinPaths (basePath g) relativePath;
     Handlers := Handlers g ++ hs |}.

Definition Handle (httpMethod : string) (g : RouterGroup)
    (relativePath : string) (hs : list Handler.t) (r : Engine) : Engine :=
  {| root := root r;
     routes := routes r
               ++ [{| method := httpMethod;
                      path := joinPaths (basePath g) relativePath;
                      handlers := Handlers g ++ hs |}];
     noRoute := noRoute r |}.

Definition anyMethods : list string :=
  ["GET"; "POST"; "PUT"; "PATCH"; "HEAD"; "OPTIONS"; "DELETE"; "CONNECT";
   "TRACE"].

Definition Any (g : RouterGroup) (relativePath : string)
    (hs : list Handler.t) (r : Engine) : Engine :=
  foldl (λ r m, Handle m g relativePath hs r) r anyMethods.

End gin.

(** The engine [Run] builds (lines 223-286). *)
Definition Run_engine : gin.Engine :=
  let r := gin.Default in
  let r := gin.Handle "GET" (gin.root r) "/swagger/*any" [Handler.WrapHandler] r in
  let r := gin.Use [Handler.Serve] r in
  let r := gin.NoRoute [Handler.index] r in
  let api := gin.Group (gin.root r) "/api" [] in
  let auth := gin.Group api "auth" [] in
  let r := gin.Handle "POST" auth "/login" [Handler.userLogin] r in
  let r := gin.Handle "POST" auth "/logout"
             [Handler.authHandler; Handler.userLogout] r in
  let r := gin.Handle "GET" auth "/info"
             [Handler.authHandler; Handler.userInfo] r in
  let r := gin.Handle "GET" auth "/nav"
             [Handler.authHandler; Handler.userNav] r in
  let data := gin.Group api "/data" [Handler.authHandler] in
  let r := gin.Handle "GET" data "/dns" [Handler.getDnsRecord] r in
  let r := gin.Handle "GET" data "/http" [Handler.getHttpRecord] r in
  let r := gin.Handle "DELETE" data "/dns" [Handler.delDnsRecord] r in
  let r := gin.Handle "DELETE" data "/http" [Handler.delHttpRecord] r in
  let setting := gin.Group api "/setting" [Handler.authHandler] in
  let r := gin.Handle "GET" setting "/app" [Handler.getAppSetting] r in
  let r := gin.Handle "POST" setting "/app" [Handler.setAppSetting] r in
  let r := gin.Handle "GET" setting "/security"
             [Handler.getSecuritySetting] r in
  let r := gin.Handle "POST" setting "/security"
             [Handler.setSecuritySetting] r in
  let admin := gin.Group api "admin"
                 [Handler.authHandler; Handler.verifyAdminPermission] in
  let r := gin.Handle "DELETE" admin "/user" [Handler.delUser] r in
  let r := gin.Handle "PUT" admin "/user" [Handler.addUser] r in
  let r := gin.Handle "POST" admin "/user" [Handler.setUser] r in
  let r := gin.Handle "GET" admin "/user/list" [Handler.userList] r in
  let appapi := gin.Group (gin.root r) "/app" [Handler.apiAuthHandler] in
  let r := gin.Handle "GET" appapi "/dns" [Handler.queryDnsRecord] r in
  let r := gin.Handle "GET" appapi "/http" [Handler.queryHttpRecord] r in
  let payload := gin.Group (gin.root r) "/payload" [] in
  let r := gin.Handle "GET" payload "/xss" [Handler.xss] r in
  let r := gin.Handle "GET" payload "/phprfi" [Handler.phpRFI] r in
  gin.Any (gin.root r) "/log/*any" [Handler.record] r.

(** The end of [Run] (lines 288-296): when [net.Listen] fails its error is
    returned and [self.s] is left as it was; otherwise [self.s] is set and
    the server serves, until it is shut down. *)
Inductive Run_outcome : Type :=
| Listen_failed (err : string)
| Serving.

Definition Run (listenErr : option string) (s : State) : State * Run_outcome :=
  match listenErr with
  | Some err => (s, Listen_failed err)
  | None => (set_server (Some true) s, Serving)
  end.

(** A route is guarded by [h] when [h] comes before the last of its
    handlers, the one that answers. *)
Definition guarded_by (h : Handler.t) (rt : gin.route) : bool :=
  bool_decide (h ∈ removelast (gin.handlers rt)).

Definition under (prefix : string) (rt : gin.route) : bool :=
  String.prefix prefix (gin.path rt).

(** Every callback, running or finished, is for a record that has a
    callback URL and a positive user id and whose row has been inserted;
    the request of a finished callback is a POST without body to that
    URL. *)
Definition well_dispatched (s : State) : Prop :=
  (∀ d, d ∈ callbacks s →
        TblDns_ (row_of d) ∈ stored s
        ∧ DnsRecord.Callback d ≠ "" ∧ 0 < DnsRecord.Uid d)
  ∧ (∀ d req r, (d, req, r) ∈ finished s →
        TblDns_ (row_of d) ∈ stored s
        ∧ DnsRecord.Callback d ≠ "" ∧ 0 < DnsRecord.Uid d
        ∧ req = Some {| retryablehttp.Method := "POST";
                        retryablehttp.URL := DnsRecord.Callback d;
                        retryablehttp.Body := None |}).

(** * Properties *)

(** ** Strings and keys *)

Section strings.

Lemma append_nil_r (s : string) : s +:+ "" = s.
Proof. induction s as [|a s IH]; [done|]. unfold String.app in *. simpl. by rewrite IH. Qed.

Lemma append_assoc (s t u : string) : (s +:+ t) +:+ u = s +:+ t +:+ u.
Proof.
  induction s as [|a s IH]; [done|].
  unfold String.app in *. simpl. by rewrite IH.
Qed.

Lemma append_cons (a : ascii) (s t : string) : String a s +:+ t = String a (s +:+ t).
Proof. done. Qed.

(** Two strings that end differently are different. *)
Lemma append_last_inj (s t : string) (a b : ascii) :
  s +:+ String a "" = t +:+ String b "" → s = t ∧ a = b.
Proof.
  revert t. induction s as [|c s IH]; intros [|d t]; rewrite ?append_cons.
  - intros [= ->]. done.
  - destruct t; rewrite ?append_cons; intros [=].
  - destruct s; rewrite ?append_cons; intros [=].
  - intros [= -> H]. apply IH in H as [-> ->]. done.
Qed.

Lemma append_inj_r (s t u : string) : s +:+ u = t +:+ u → s = t.
Proof.
  revert s t. induction u as [|c u IH]; intros s t.
  - by rewrite !append_nil_r.
  - change (String c u) with (String c "" +:+ u).
    rewrite <- !append_assoc. intros H%IH. by apply append_last_inj in H as [].
Qed.

Lemma userKey_eq (n : Z) :
  userKey n = "id.user%!(EXTRA int64=" +:+ pretty n +:+ ")".
Proof. reflexivity. Qed.

Lemma errorCountKey_eq (n : Z) : errorCountKey n = pretty n +:+ ".errcount".
Proof. reflexivity. Qed.

Lemma errorCountKey_inj (m n : Z) : errorCountKey m = errorCountKey n → m = n.
Proof.
  rewrite !errorCountKey_eq. intros H%append_inj_r.
  by apply (inj pretty) in H.
Qed.

Lemma userKey_inj (m n : Z) : userKey m = userKey n → m = n.
Proof.
  rewrite !userKey_eq. intros H.
  apply (inj (String.app _)) in H. apply append_inj_r in H.
  by apply (inj pretty) in H.
Qed.

End strings.

(** ** The duplicate-key classifier *)

Section classifier.

(** On a backend other than the two it knows, [IsDuplicate] answers
    [false] for every error and logs nothing. *)
Lemma IsDuplicate_other_backend (driver : string) (err : error) :
  driver ≠ "sqlite3" → driver ≠ "mysql" →
  IsDuplicate (engine driver) err = ([], Ok false).
Proof.
  intros H1 H2. unfold IsDuplicate, engine. simpl.
  rewrite !bool_decide_eq_false_2 by done. by destruct err.
Qed.

(** On the sqlite3 backend an error that is not a [sqlite3.Error] is
    logged and classified as not a duplicate. *)
Lemma IsDuplicate_sqlite3_mismatch (err : error) :
  err ≠ nil_error → (∀ e, err ≠ sqlite3_Error e) →
  IsDuplicate (engine "sqlite3") err
  = (["[IsDuplicate] convert sqlite error: typeof(err)"], Ok false).
Proof. intros H1 H2. destruct err; try done. by destruct (H2 e). Qed.

(** The driver name the cleaner tests for, ["sqlite"], is not the one
    the classifier knows. *)
Lemma IsDuplicate_sqlite_literal (e : sqlite3.Error) :
  IsDuplicate (engine "sqlite") (sqlite3_Error e) = ([], Ok false).
Proof. reflexivity. Qed.

End classifier.

(** C9.  For every backend, and even when the engine handle is nil,
    [IsDuplicate] of the nil error is [false]: the driver name is not
    read, nothing is logged and nothing panics. *)
Theorem C9_IsDuplicate_nil_error (orm : option xorm.Engine) :
  IsDuplicate orm nil_error = ([], Ok false).
Proof. reflexivity. Qed.

(** C3.  [IsDuplicate] implements the enumerated mapping.  On the mysql
    backend a native error is a duplicate iff its number is 1062, 1169 or
    1022 (so 1062 is, 1234 is not); on the sqlite backend, whose driver
    name is "sqlite3", a native error is a duplicate iff its code is the
    constraint-violation code; on every other backend the answer is
    [false]. *)
Theorem C3_IsDuplicate_mapping :
  (∀ e : mysql.MySQLError,
     IsDuplicate (engine "mysql") (mysql_MySQLError (Some e))
     = ([], Ok (bool_decide (mysql.Number e = 1062 ∨ mysql.Number e = 1169
                             ∨ mysql.Number e = 1022))))
  ∧ IsDuplicate (engine "mysql")
      (mysql_MySQLError (Some {| mysql.Number := 1062; mysql.Message := "" |}))
    = ([], Ok true)
  ∧ IsDuplicate (engine "mysql")
      (mysql_MySQLError (Some {| mysql.Number := 1234; mysql.Message := "" |}))
    = ([], Ok false)
  ∧ (∀ e : sqlite3.Error,
       IsDuplicate (engine "sqlite3") (sqlite3_Error e)
       = ([], Ok (bool_decide (sqlite3.Code e = sqlite3.ErrConstraint))))
  ∧ (∀ (driver : string) (err : error),
       driver ≠ "sqlite3" → driver ≠ "mysql" →
       IsDuplicate (engine driver) err = ([], Ok false)).
Proof.
  split_and!; try reflexivity.
  - intros e. unfold IsDuplicate. simpl. by case_bool_decide.
  - intros e. unfold IsDuplicate. simpl. by case_bool_decide.
  - apply IsDuplicate_other_backend.
Qed.

Lemma C3_IsDuplicate_mapping_witness :
  IsDuplicate (engine "postgres") (other_error "unique violation") = ([], Ok false).
Proof.
  destruct C3_IsDuplicate_mapping as (_ & _ & _ & _ & H).
  apply H; discriminate.
Defined.

(** C2.  On the mysql backend an error that is not a [*mysql.MySQLError]
    makes [IsDuplicate] panic in the type assertion of line 324, where the
    sqlite3 branch tests the assertion and goes on; so does a nil
    [*mysql.MySQLError]. *)
Theorem C2_IsDuplicate_mysql_mismatch_panics :
  (∀ msg,
     IsDuplicate (engine "mysql") (other_error msg)
     = ([], Panic "interface conversion: error is not *mysql.MySQLError"))
  ∧ (∀ e,
       IsDuplicate (engine "mysql") (sqlite3_Error e)
       = ([], Panic "interface conversion: error is not *mysql.MySQLError"))
  ∧ IsDuplicate (engine "mysql") (mysql_MySQLError None)
    = ([], Panic "invalid memory address or nil pointer dereference").
Proof. done. Qed.

(** ** The keys of the cache *)

(** C10.  The key under which the cleaner looks up the profile of user
    [n] is [fmt.Sprintf("id.user", n)], the string
    "id.user%!(EXTRA int64=<n>)"; it is no key of the form "<id>.user",
    whereas the failure counter of the same user is under "<n>.errcount". *)
Theorem C10_userKey_format (n : Z) :
  userKey n = fmt.Sprintf "id.user" [n]
  ∧ userKey n = "id.user%!(EXTRA int64=" +:+ pretty n +:+ ")"
  ∧ (∀ id : string, userKey n ≠ id +:+ ".user")
  ∧ errorCountKey n = pretty n +:+ ".errcount".
Proof.
  split_and!; try reflexivity.
  intros id. rewrite userKey_eq.
  change ("id.user%!(EXTRA int64=" +:+ pretty n +:+ ")")
    with ("id.user%!(EXTRA int64=" +:+ pretty n +:+ String ")" "").
  change (id +:+ ".user") with (id +:+ ".use" +:+ String "r" "").
  rewrite <- !append_assoc. intros H%append_last_inj. by destruct H.
Qed.

(** ** The callback dispatcher *)

Section callback.

Import retryablehttp.

(** A callback whose request is nil panics in [client.Do]. *)
Lemma dnsCallBack_nil e net rcd c :
  dnsCallBack (Some e) net rcd c
  = Panic "invalid memory address or nil pointer dereference".
Proof. reflexivity. Qed.

(** A callback that returns has handed a POST for the callback URL to the
    client, and has deleted or incremented the counter according to what
    the tries of the client came to. *)
Lemma dnsCallBack_Ok urlErr net rcd c req tr c' :
  dnsCallBack urlErr net rcd c = Ok (req, tr, c') →
  urlErr = None
  ∧ req = Some {| Method := "POST"; URL := DnsRecord.Callback rcd;
                  Body := None |}
  ∧ tr = attempts client net
  ∧ c' = match returned tr with
         | DoError _ =>
             Cache.IncrementInt64 c (errorCountKey (DnsRecord.Uid rcd)) 1
         | DoResponse _ => Cache.Delete c (errorCountKey (DnsRecord.Uid rcd))
         end.
Proof.
  destruct urlErr as [e|]; [done|]. unfold dnsCallBack. simpl.
  destruct (returned (attempts client net)) eqn:Hr; intros [= <- <- <-];
    by rewrite Hr.
Qed.

Lemma dnsCallBack_returns net rcd c :
  ∃ c', dnsCallBack None net rcd c
        = Ok (Some {| Method := "POST"; URL := DnsRecord.Callback rcd;
                      Body := None |}, attempts client net, c').
Proof.
  unfold dnsCallBack. simpl.
  destruct (returned (attempts client net)); eauto.
Qed.

Lemma dnsCallBack_response urlErr net rcd c req tr c' status :
  dnsCallBack urlErr net rcd c = Ok (req, tr, c') →
  returned tr = DoResponse status →
  c' = Cache.Delete c (errorCountKey (DnsRecord.Uid rcd)).
Proof. intros (_ & _ & _ & ->)%dnsCallBack_Ok Hr. by rewrite Hr. Qed.

Lemma dnsCallBack_error urlErr net rcd c req tr c' msg :
  dnsCallBack urlErr net rcd c = Ok (req, tr, c') →
  returned tr = DoError msg →
  c' = Cache.IncrementInt64 c (errorCountKey (DnsRecord.Uid rcd)) 1.
Proof. intros (_ & _ & _ & ->)%dnsCallBack_Ok Hr. by rewrite Hr. Qed.

Lemma FailureCounter_absent c uid :
  Cache.Get c (errorCountKey uid) = None → FailureCounter c uid = 0.
Proof. unfold FailureCounter. by intros ->. Qed.


Section loop.
Variable c : Client.
Variable net : nat → attempt.




End loop.


End callback.







(** Nor do the waits stay below 60 seconds: a server that replies 503
    with [Retry-After: 3600] is waited for an hour after each try. *)
Example Retry_After_is_not_capped :
  retryablehttp.waits
    (retryablehttp.attempts client
       (λ _, retryablehttp.Response 503 (Some 3600)))
  = [3600 * time.Second; 3600 * time.Second; 3600 * time.Second].
Proof. vm_compute. reflexivity. Qed.

(** ** The retention cleaner *)

Section cleaner.

Lemma wrap64_id (z : Z) : - 2 ^ 63 ≤ z < 2 ^ 63 → wrap64 z = z.
Proof. intros H. unfold wrap64. rewrite Z.mod_small; lia. Qed.

(** For an interval of at most 9223372036 seconds, which is what fits a
    [Duration] in nanoseconds, the bound is [now] minus the interval. *)
Lemma cutoff_unixNano (now : time.Time) (interval : Z) :
  - 9223372036 ≤ interval ≤ 9223372036 →
  time.unixNano (cutoff now interval)
  = time.unixNano now - interval * time.Second.
Proof.
  intros H. unfold cutoff, time.Add, time.mul, time.of_int, time.Second. simpl.
  rewrite (wrap64_id (-1)) by lia. rewrite (wrap64_id interval) by lia.
  rewrite (wrap64_id (-1 * interval)) by lia. rewrite wrap64_id by lia. lia.
Qed.

(** The [Find] of line 95 fails on every user table. *)
Lemma Find_ids_fails (users : list Z) :
  xorm.Find (xorm.Cols ["id"] xorm.NewSession) users
  = inl xorm.ErrTableNotFound.
Proof. reflexivity. Qed.

End cleaner.

(** C6.  [doClean] deletes nothing.  Its [Find] is made on a statement
    that names no table, for a slice of [int64], and returns
    [ErrTableNotFound]; [doClean] logs the error and returns before it
    looks at the cache or deletes a row.  So for every driver, cache,
    time and content of the tables, the tables after [doClean] are the
    tables before.  On the example of the specification: user 7 is in
    the user table, the profile with the interval of 7200 s is in the
    cache under the key that [doClean] would look up, and the row of
    09:59:59 is older than the bound at 12:00:00; it is still in the
    table after the cleanup. *)
Theorem C6_doClean_deletes_nothing (driver : string)
    (c : gmap string Cache.value) (now : time.Time) (db : DB) :
  xorm.Find (xorm.Cols ["id"] xorm.NewSession) (TblUser.Id <$> tbl_user db)
  = inl xorm.ErrTableNotFound
  ∧ doClean driver c now db = Ok db
  ∧ 7 ∈ TblUser.Id <$> tbl_user example.tables
  ∧ Cache.Get example.profiles (userKey 7)
    = Some (Cache.VUser (Some example.user7))
  ∧ TblUser.CleanInterval example.user7 = 7200
  ∧ time.unixNano (example.clock 9 59 59)
    < time.unixNano (example.clock 12 0 0) - 7200 * time.Second
  ∧ time.ltb (example.clock 9 59 59)
      (cutoff (example.clock 12 0 0) (TblUser.CleanInterval example.user7))
    = true
  ∧ ∃ db',
      doClean driver example.profiles (example.clock 12 0 0) example.tables
      = Ok db'
      ∧ row_of (example.dns 7 (example.clock 9 59 59) "") ∈ tbl_dns db'
      ∧ example.http_row 7 (example.clock 9 59 59) ∈ tbl_http db'.
Proof.
  split; [apply Find_ids_fails|].
  split; [reflexivity|]. split; [vm_compute; by left|].
  split; [reflexivity|]. split; [reflexivity|].
  split; [vm_compute; reflexivity|]. split; [vm_compute; reflexivity|].
  eexists. split; [reflexivity|]. split; vm_compute; by left.
Qed.

(** ** Executions *)

Section executions.

Import retryablehttp.

Lemma step_alive s a s' : step s a = Some s' → crashed s = None.
Proof. unfold step. by destruct (crashed s). Qed.

Lemma run_app s acts1 acts2 :
  run s (acts1 ++ acts2) = s' ← run s acts1; run s' acts2.
Proof.
  revert s. induction acts1 as [|a acts1 IH]; intros s; simpl; [done|].
  destruct (step s a); simpl; auto.
Qed.

(** What the body of the receive case leaves as it is. *)
Lemma store_unchanged rcd insertErr s :
  let s' := store rcd insertErr s in
  cache s' = cache s ∧ finished s' = finished s ∧ output s' = output s
  ∧ output_closed s' = output_closed s ∧ routine s' = routine s
  ∧ storeQuit s' = storeQuit s ∧ shutdown s' = shutdown s
  ∧ server s' = server s ∧ orm_closed s' = orm_closed s.
Proof.
  destruct rcd as [d|h|]; simpl; [|done..].
  destruct insertErr; simpl; [done|].
  case_bool_decide; simpl; [|done].
  destruct (Cache.Get _ _) as [[v| |]|]; simpl; try done.
  by case_bool_decide.
Qed.

(** The callbacks it starts: none, or one for the record received. *)
Lemma store_callbacks rcd insertErr s :
  callbacks (store rcd insertErr s) = callbacks s
  ∨ ∃ d, rcd = DnsRecord_ d ∧ insertErr = None
         ∧ DnsRecord.Callback d ≠ "" ∧ 0 < DnsRecord.Uid d
         ∧ FailureCounter (cache s) (DnsRecord.Uid d)
           < DefaultMaxCallbackErrorCount
         ∧ callbacks (store rcd insertErr s) = callbacks s ++ [d].
Proof.
  destruct rcd as [d|h|]; simpl; [|by left..].
  destruct insertErr; simpl; [by left|].
  case_bool_decide as Hcb; simpl; [|by left]. destruct Hcb.
  unfold FailureCounter.
  destruct (Cache.Get _ _) as [[v| |]|] eqn:Hget; simpl in *; rewrite ?Hget;
    try by left.
  - case_bool_decide; [by left|]. right. exists d.
    split_and!; rewrite ?Hget; auto with lia.
  - right. exists d. split_and!; rewrite ?Hget; auto. done.
Qed.

(** The rows it inserts. *)
Lemma store_stored rcd s :
  stored (store rcd None s) = stored s ++ stored_rows [rcd].
Proof.
  destruct rcd as [d|h|]; simpl; rewrite ?app_nil_r; [|done..].
  case_bool_decide; simpl; [|done].
  destruct (Cache.Get _ _) as [[v| |]|]; simpl; try done.
  by case_bool_decide.
Qed.

(** Only a callback that returns changes the cache and the log of
    finished callbacks. *)
Lemma step_cache s a s' :
  step s a = Some s' →
  (cache s' = cache s ∧ finished s' = finished s)
  ∨ ∃ i rcd urlErr net req tr c',
      a = CallbackDone i urlErr net ∧ callbacks s !! i = Some rcd
      ∧ dnsCallBack urlErr net rcd (cache s) = Ok (req, tr, c')
      ∧ cache s' = c'
      ∧ finished s' = finished s ++ [(rcd, req, returned tr)].
Proof.
  intros Hstep. pose proof (step_alive _ _ _ Hstep) as Halive.
  unfold step in Hstep. rewrite Halive in Hstep.
  destruct a as [rcd| |w|i urlErr net|now|st].
  - destruct (output_closed s); simplify_eq. by left.
  - destruct (output_closed s); simplify_eq. by left.
  - unfold RunStoreRoutine in Hstep. left.
    destruct (routine s); [|done]. destruct w as [|insertErr|].
    + by simplify_eq.
    + destruct (output s) as [|rcd rest]; simplify_eq.
      by destruct (store_unchanged rcd insertErr (set_output rest s)) as (-> & -> & _).
    + destruct (output s), (output_closed s), (storeQuit s); by simplify_eq.
  - destruct (callbacks s !! i) as [rcd|] eqn:Hi; [|done].
    destruct (dnsCallBack urlErr net rcd (cache s)) as [[[req tr] c]|m] eqn:Hcb;
      simplify_eq; [|by left].
    right. by exists i, rcd, urlErr, net, req, tr, c.
  - left. destruct (cleaners s); [done|].
    destruct (doClean _ _ _ _); by simplify_eq.
  - left. unfold Shutdown in Hstep.
    destruct st, (shutdown s), (server s), (storeQuit s); by simplify_eq.
Qed.

End executions.

(** ** The failure counter *)

Section counter.

Import retryablehttp.

Variable uid : Z.

Lemma wrap64_add_l (a b : Z) : wrap64 (wrap64 a + b) = wrap64 (a + b).
Proof.
  unfold wrap64. f_equal.
  replace ((a + 2 ^ 63) `mod` 2 ^ 64 - 2 ^ 63 + b + 2 ^ 63)
    with ((a + 2 ^ 63) `mod` 2 ^ 64 + b) by lia.
  rewrite Zplus_mod_idemp_l. f_equal. lia.
Qed.

Lemma IncrementInt64_lookup_ne (c : gmap string Cache.value) k k' n :
  k ≠ k' → Cache.Get (Cache.IncrementInt64 c k n) k' = Cache.Get c k'.
Proof.
  intros Hne. unfold Cache.IncrementInt64, Cache.Get.
  destruct (c !! k) as [[v| |]|]; by rewrite ?lookup_insert_ne.
Qed.

Lemma trailing_failures_snoc log rcd req r :
  trailing_failures uid (log ++ [(rcd, req, r)])
  = if bool_decide (DnsRecord.Uid rcd = uid) then
      match r with
      | DoError _ => S (trailing_failures uid log)
      | DoResponse _ => O
      end
    else trailing_failures uid log.
Proof. unfold trailing_failures. by rewrite foldl_app. Qed.

(** A callback that returns keeps the counter in agreement with the
    log. *)
Lemma dnsCallBack_counter_agrees (c : gmap string Cache.value) log rcd
    urlErr net req tr c' :
  dnsCallBack urlErr net rcd c = Ok (req, tr, c') →
  Cache.Get c (errorCountKey uid)
  = match trailing_failures uid log with
    | O => None
    | S n => Some (Cache.VInt64 (wrap64 (Z.of_nat (S n))))
    end →
  Cache.Get c' (errorCountKey uid)
  = match trailing_failures uid (log ++ [(rcd, req, returned tr)]) with
    | O => None
    | S n => Some (Cache.VInt64 (wrap64 (Z.of_nat (S n))))
    end.
Proof.
  intros Hcb Hc. rewrite trailing_failures_snoc. case_bool_decide as Huid.
  - subst uid. destruct (returned tr) as [status|msg] eqn:Hr.
    + rewrite (dnsCallBack_response _ _ _ _ _ _ _ status Hcb Hr).
      apply lookup_delete_eq.
    + rewrite (dnsCallBack_error _ _ _ _ _ _ _ msg Hcb Hr).
      unfold Cache.IncrementInt64. unfold Cache.Get in Hc. rewrite Hc.
      destruct (trailing_failures _ log) as [|n].
      * apply lookup_insert_eq.
      * unfold Cache.Get. rewrite lookup_insert_eq, wrap64_add_l.
        do 3 f_equal. lia.
  - assert (errorCountKey (DnsRecord.Uid rcd) ≠ errorCountKey uid) as Hne
      by (intros ?%errorCountKey_inj; done).
    rewrite <- Hc. destruct (returned tr) as [status|msg] eqn:Hr.
    + rewrite (dnsCallBack_response _ _ _ _ _ _ _ status Hcb Hr).
      by apply lookup_delete_ne.
    + rewrite (dnsCallBack_error _ _ _ _ _ _ _ msg Hcb Hr).
      by apply IncrementInt64_lookup_ne.
Qed.

Lemma step_counter_agrees s a s' :
  step s a = Some s' → counter_agrees uid s → counter_agrees uid s'.
Proof.
  unfold counter_agrees.
  intros [[-> ->]|(i & rcd & urlErr & net & req & tr & c' & _ & _ & Hcb & -> & ->)]%step_cache
    Hs; [done|].
  by eapply dnsCallBack_counter_agrees.
Qed.

Lemma run_counter_agrees s acts s' :
  run s acts = Some s' → counter_agrees uid s → counter_agrees uid s'.
Proof.
  revert s. induction acts as [|a acts IH]; intros s; simpl.
  - by intros [= ->].
  - destruct (step s a) as [s1|] eqn:Hstep; [|done]. simpl.
    eauto using step_counter_agrees.
Qed.

Lemma counter_agrees_FailureCounter s :
  counter_agrees uid s →
  FailureCounter (cache s) uid
  = wrap64 (Z.of_nat (trailing_failures uid (finished s))).
Proof.
  unfold counter_agrees, FailureCounter. intros ->.
  by destruct (trailing_failures _ _).
Qed.

(** At or above the cap an iteration of the store routine starts no
    callback for the user, and changes neither the cache nor the log. *)
Lemma RunStoreRoutine_at_cap s w s' :
  DefaultMaxCallbackErrorCount ≤ FailureCounter (cache s) uid →
  RunStoreRoutine w s = Some s' →
  cache s' = cache s ∧ finished s' = finished s
  ∧ filter (λ d, DnsRecord.Uid d = uid) (callbacks s')
    = filter (λ d, DnsRecord.Uid d = uid) (callbacks s).
Proof.
  intros Hcap Hrun. unfold RunStoreRoutine in Hrun.
  destruct (routine s); [|done]. destruct w as [|insertErr|].
  - by simplify_eq.
  - destruct (output s) as [|rcd rest]; simplify_eq.
    destruct (store_unchanged rcd insertErr (set_output rest s))
      as (-> & -> & _).
    split; [done|]. split; [done|].
    destruct (store_callbacks rcd insertErr (set_output rest s))
      as [->|(d & _ & _ & _ & _ & Hlt & ->)]; [done|].
    simpl in *. rewrite filter_app, filter_cons_False, filter_nil, app_nil_r;
      [done|].
    intros Heq. rewrite Heq in Hlt. lia.
  - destruct (output s), (output_closed s), (storeQuit s); by simplify_eq.
Qed.

Lemma step_CallbackDone s i net s' rcd :
  callbacks s !! i = Some rcd →
  step s (CallbackDone i None net) = Some s' →
  ∃ req c',
    dnsCallBack None net rcd (cache s) = Ok (req, attempts client net, c')
    ∧ cache s' = c'
    ∧ finished s' = finished s ++ [(rcd, req, returned (attempts client net))]
    ∧ callbacks s' = delete i (callbacks s)
    ∧ crashed s' = None.
Proof.
  intros Hi Hstep. pose proof (step_alive _ _ _ Hstep) as Halive.
  unfold step in Hstep. rewrite Halive, Hi in Hstep.
  destruct (dnsCallBack_returns net rcd (cache s)) as [c' Hcb].
  rewrite Hcb in Hstep. simplify_eq. by eexists _, c'.
Qed.

(** With no counter, a record with a callback URL and a positive user id
    is dispatched. *)
Lemma store_dispatches s d :
  Cache.Get (cache s) (errorCountKey (DnsRecord.Uid d)) = None →
  DnsRecord.Callback d ≠ "" → 0 < DnsRecord.Uid d →
  callbacks (store (DnsRecord_ d) None s) = callbacks s ++ [d].
Proof.
  intros Hget Hcb Hpos. simpl. rewrite bool_decide_eq_true_2 by done.
  simpl. by rewrite Hget.
Qed.

End counter.

(** C4.  From a state in which user [uid] has no failure counter and no
    callback has finished, whenever the last [k] callbacks of the user
    that have finished all failed, [k] below the cap of 5, the counter is
    [k].  In a state where the counter is at or above the cap, an
    iteration of the store routine starts no callback for the user, so
    that no request is sent for the event, and leaves the counter as it
    is.  A callback of the user that gets a response deletes the counter,
    and with no counter the next event of the user that has a callback URL
    is dispatched again, as is every such event while the counter is below
    the cap. *)
Theorem C4_FailureCounter_circuit_breaker (uid : Z) :
  (∀ s acts s' (k : nat),
     Cache.Get (cache s) (errorCountKey uid) = None → finished s = [] →
     run s acts = Some s' →
     trailing_failures uid (finished s') = k →
     Z.of_nat k < DefaultMaxCallbackErrorCount →
     FailureCounter (cache s') uid = Z.of_nat k)
  ∧ (∀ s w s',
       DefaultMaxCallbackErrorCount ≤ FailureCounter (cache s) uid →
       RunStoreRoutine w s = Some s' →
       cache s' = cache s ∧ finished s' = finished s
       ∧ filter (λ d, DnsRecord.Uid d = uid) (callbacks s')
         = filter (λ d, DnsRecord.Uid d = uid) (callbacks s))
  ∧ (∀ s i rcd net status s',
       callbacks s !! i = Some rcd → DnsRecord.Uid rcd = uid →
       retryablehttp.returned (retryablehttp.attempts client net)
       = retryablehttp.DoResponse status →
       step s (CallbackDone i None net) = Some s' →
       Cache.Get (cache s') (errorCountKey uid) = None
       ∧ FailureCounter (cache s') uid = 0)
  ∧ (∀ s d,
       DnsRecord.Uid d = uid →
       Cache.Get (cache s) (errorCountKey uid) = None →
       DnsRecord.Callback d ≠ "" → 0 < uid →
       callbacks (store (DnsRecord_ d) None s) = callbacks s ++ [d])
  ∧ (∀ s d v,
       DnsRecord.Uid d = uid →
       Cache.Get (cache s) (errorCountKey uid) = Some (Cache.VInt64 v) →
       v < DefaultMaxCallbackErrorCount →
       DnsRecord.Callback d ≠ "" → 0 < uid →
       callbacks (store (DnsRecord_ d) None s) = callbacks s ++ [d]).
Proof.
  split_and!.
  - intros s acts s' k Hnone Hlog Hrun Hk Hcap.
    assert (counter_agrees uid s) as Hs
      by (unfold counter_agrees; by rewrite Hnone, Hlog).
    rewrite (counter_agrees_FailureCounter uid s')
      by eauto using run_counter_agrees.
    rewrite Hk. apply wrap64_id. unfold DefaultMaxCallbackErrorCount in Hcap. lia.
  - apply RunStoreRoutine_at_cap.
  - intros s i rcd net status s' Hi <- Hresp Hstep.
    destruct (step_CallbackDone _ _ _ _ _ Hi Hstep) as (req & c' & Hcb & -> & _).
    rewrite (dnsCallBack_response _ _ _ _ _ _ _ status Hcb Hresp).
    assert (Cache.Get (Cache.Delete (cache s) (errorCountKey (DnsRecord.Uid rcd)))
              (errorCountKey (DnsRecord.Uid rcd)) = None) as Hget
      by apply lookup_delete_eq.
    split; [done|]. by apply FailureCounter_absent.
  - intros s d <- Hget Hcb Hpos. by apply store_dispatches.
  - intros s d v <- Hget Hlt Hcb Hpos. simpl.
    rewrite bool_decide_eq_true_2 by done. simpl. rewrite Hget.
    by rewrite bool_decide_eq_false_2 by lia.
Qed.

(** ** The store routine and the stream *)

Section stream.

(** Case analysis on a step: one goal for each way the action can happen. *)
Ltac step_inv H a :=
  let Halive := fresh "Halive" in
  pose proof (step_alive _ _ _ H) as Halive;
  unfold step in H; rewrite Halive in H;
  destruct a as [?rcd| |[|?insertErr|]|?i ?urlErr ?net|?now|[?err| |]];
  unfold RunStoreRoutine, Shutdown in H;
  repeat match type of H with
         | context [match ?x with _ => _ end] => destruct x eqn:?
         end;
  simplify_eq.

Lemma stored_rows_app l1 l2 :
  stored_rows (l1 ++ l2) = stored_rows l1 ++ stored_rows l2.
Proof. apply omap_app. Qed.

Lemma sent_cons a acts : sent (a :: acts) = sent [a] ++ sent acts.
Proof. unfold sent. simpl. by destruct a. Qed.

(** While no insert fails, every value put on the stream is either still
    on the stream or has been handled, and the rows inserted are those of
    the values handled, in their order. *)
Lemma step_stored s a s' :
  step s a = Some s' →
  (∀ e, a ≠ StoreRoutine (Output_value (Some e))) →
  stored s' ++ stored_rows (output s')
  = stored s ++ stored_rows (output s ++ sent [a]).
Proof.
  intros Hstep Hok. step_inv Hstep a; simpl;
    repeat match goal with
           | H : output s = _ |- context [output s] => rewrite H
           end;
    rewrite ?app_nil_r, ?stored_rows_app; try done.
  destruct insertErr as [e|]; [by destruct (Hok e)|].
  rewrite store_stored.
  match goal with |- context [output (store ?r None ?s0)] =>
    destruct (store_unchanged r None s0) as (_ & _ & -> & _) end.
  simpl. rewrite <- app_assoc. f_equal. by destruct r.
Qed.

Lemma step_coordinated s a s' :
  step s a = Some s' → coordinated s → coordinated s'.
Proof.
  intros Hstep Hs. step_inv Hstep a; unfold coordinated in *; simpl;
    try (match goal with |- context [store ?r ?e ?s0] =>
           destruct (store_unchanged r e s0)
             as (_ & _ & -> & -> & -> & -> & -> & -> & ->); simpl end);
    destruct Hs as (Hsrv & Hquit & Hret & Horm & Hpc);
    repeat match goal with
           | H : _ s = _ |- _ => rewrite H in *
           end;
    try (destruct (shutdown s));
    (split_and!; [tauto || naive_solver..]).
Qed.

Lemma run_coordinated s acts s' :
  run s acts = Some s' → coordinated s → coordinated s'.
Proof.
  revert s. induction acts as [|a acts IH]; intros s; simpl.
  - by intros [= ->].
  - destruct (step s a) as [s1|] eqn:Hstep; [|done]. simpl.
    eauto using step_coordinated.
Qed.

Lemma started_coordinated s : started s → coordinated s.
Proof.
  intros (Hr & Hq & Hs & Ho & Hsrv & _). unfold coordinated.
  rewrite Hr, Hq, Hs, Ho, Hsrv. naive_solver.
Qed.

Lemma run_stored s acts s' :
  run s acts = Some s' → inserts_succeed acts →
  stored s' ++ stored_rows (output s')
  = stored s ++ stored_rows (output s ++ sent acts).
Proof.
  unfold inserts_succeed.
  revert s. induction acts as [|a acts IH]; intros s; simpl.
  - intros [= ->] _. by rewrite app_nil_r.
  - destruct (step s a) as [s1|] eqn:Hstep; [|done]. simpl.
    intros Hrun Hok. rewrite (IH _ Hrun) by set_solver.
    rewrite stored_rows_app, app_assoc, (step_stored _ _ _ Hstep) by set_solver.
    rewrite !stored_rows_app, <- !app_assoc. do 2 f_equal.
    by destruct a as [[]| | | | |].
Qed.






End stream.

(** C1, as amended.  In every execution from a started server in which
    no insert fails, the rows inserted through the store routine's session
    are, in the order of the stream, one for each DNS record the routine
    has received, and none for an HTTP record; each value put on the
    stream is either still on it or has been handled once.  Once the
    routine has found the stream closed and returned, the rows are those
    of all the DNS records ever put on the stream. *)
Theorem C1_store_routine_persists_dns_records (s : State)
    (acts : list action) (s' : State) :
  started s → run s acts = Some s' → inserts_succeed acts →
  stored s' ++ stored_rows (output s')
  = stored s ++ stored_rows (output s ++ sent acts)
  ∧ (routine s' = Returned →
     stored s' = stored s ++ stored_rows (output s ++ sent acts)).
Proof.
  intros Hs Hrun Hok. pose proof (run_stored _ _ _ Hrun Hok) as Hrows.
  split; [done|]. intros Hret.
  destruct (run_coordinated _ _ _ Hrun (started_coordinated _ Hs))
    as (_ & _ & Hdrained & _).
  destruct (Hdrained Hret) as [Hout _].
  by rewrite Hout, app_nil_r in Hrows.
Qed.


(** ** The properties on the sample data *)

Lemma started_server0 : started example.server0.
Proof. by repeat split. Qed.

Lemma inserts_succeed_both_variants : inserts_succeed example.both_variants.
Proof.
  intros e H. unfold example.both_variants in H.
  repeat (apply elem_of_cons in H as [H|H]; [discriminate|]).
  by apply elem_of_nil in H.
Qed.

(** C1, as stated, fails: the HTTP record of the sample stream is received
    by the store routine, which inserts nothing for it, so that after the
    routine has returned one row has been inserted for two events. *)
Lemma C1_http_record_not_persisted :
  started example.server0
  ∧ inserts_succeed example.both_variants
  ∧ ∃ s', run example.server0 example.both_variants = Some s'
          ∧ routine s' = Returned
          ∧ stored s'
            = [TblDns_ (row_of (example.dns 7 (example.clock 9 0 0) ""))]
          ∧ spec_rows (output example.server0 ++ sent example.both_variants)
            = [TblDns_ (row_of (example.dns 7 (example.clock 9 0 0) ""));
               TblHttp_ (example.http_row 7 (example.clock 9 0 1))]
          ∧ stored s'
            ≠ stored example.server0
              ++ spec_rows (output example.server0 ++ sent example.both_variants).
Proof.
  split; [apply started_server0|]. split; [apply inserts_succeed_both_variants|].
  eexists. split; [vm_compute; reflexivity|].
  split; [reflexivity|]. split; [reflexivity|]. split; [reflexivity|].
  vm_compute. discriminate.
Qed.

Lemma C1_store_routine_persists_dns_records_witness :
  ∃ s', run example.server0 example.both_variants = Some s'
        ∧ stored s'
          = stored example.server0
            ++ stored_rows (output example.server0 ++ sent example.both_variants).
Proof.
  eexists. split; [vm_compute; reflexivity|].
  eapply (C1_store_routine_persists_dns_records example.server0
            example.both_variants).
  - apply started_server0.
  - vm_compute; reflexivity.
  - apply inserts_succeed_both_variants.
  - reflexivity.
Defined.

(** The example of the specification: with an interval of 7200 s, a
    cleanup at 12:00:00 leaves the rows of 09:59:59 where they are, also
    when the cache holds something else than a profile under the key. *)
Example doClean_at_noon :
  doClean "mysql" example.profiles (example.clock 12 0 0) example.tables
  = Ok example.tables
  ∧ doClean "mysql" example.mistyped (example.clock 12 0 0) example.tables
    = Ok example.tables.
Proof. split; reflexivity. Qed.

(** The circuit breaker on the sample data: after five failures the
    counter is 5 and the seventh record is stored without a callback;
    the response to the sixth callback deletes the counter, and the
    eighth record is dispatched. *)
Example circuit_breaker_trips_and_resets :
  ∃ s1 s2 s3 s4,
    run example.server0 example.tripped = Some s1
    ∧ FailureCounter (cache s1) 7 = 5
    ∧ length (callbacks s1) = 1%nat
    ∧ run s1 example.seventh = Some s2
    ∧ length (stored s2) = 7%nat
    ∧ callbacks s2 = callbacks s1 ∧ finished s2 = finished s1
    ∧ run s2 example.sixth_succeeds = Some s3
    ∧ Cache.Get (cache s3) (errorCountKey 7) = None
    ∧ callbacks s3 = []
    ∧ run s3 example.eighth = Some s4
    ∧ callbacks s4 = [example.dns 7 (example.clock 9 0 7) "http://hook.example.org/"].
Proof.
  do 4 eexists.
  split; [vm_compute; reflexivity|]. split; [vm_compute; reflexivity|].
  split; [reflexivity|].
  split; [vm_compute; reflexivity|]. split; [reflexivity|].
  split; [reflexivity|]. split; [reflexivity|].
  split; [vm_compute; reflexivity|]. split; [vm_compute; reflexivity|].
  split; [reflexivity|].
  split; [vm_compute; reflexivity|]. reflexivity.
Qed.

Lemma C4_FailureCounter_circuit_breaker_witness :
  (∃ s', run example.server0 example.two_failures = Some s'
         ∧ FailureCounter (cache s') 7 = 2)
  ∧ (∃ s s', run example.server0 example.tripped = Some s
             ∧ RunStoreRoutine (Output_value None)
                 (set_output [example.hook 6] s) = Some s'
             ∧ cache s' = cache s ∧ finished s' = finished s
             ∧ filter (λ d, DnsRecord.Uid d = 7) (callbacks s')
               = filter (λ d, DnsRecord.Uid d = 7) (callbacks s)).
Proof.
  split.
  - eexists. split; [vm_compute; reflexivity|].
    apply (proj1 (C4_FailureCounter_circuit_breaker 7)
             example.server0 example.two_failures _ 2%nat).
    + reflexivity.
    + reflexivity.
    + vm_compute; reflexivity.
    + vm_compute; reflexivity.
    + vm_compute; reflexivity.
  - do 2 eexists. split; [vm_compute; reflexivity|].
    split; [vm_compute; reflexivity|].
    match goal with |- cache ?s2 = cache ?s1 ∧ _ =>
      apply (proj1 (proj2 (C4_FailureCounter_circuit_breaker 7))
               (set_output [example.hook 6] s1) (Output_value None) s2)
    end.
    + vm_compute. discriminate.
    + vm_compute; reflexivity.
Defined.


(** The precondition of [Shutdown]: called while the stream is open and
    empty, it waits for a store routine that waits for the stream; only
    the event source can get them going again. *)
Example shutdown_before_close_blocks :
  ∃ s', run example.server0 example.shutdown_too_early = Some s'
        ∧ crashed s' = None
        ∧ shutdown s' = AwaitStoreQuit None
        ∧ ∀ a, progress a = true → step s' a = None.
Proof.
  eexists. split; [vm_compute; reflexivity|].
  split; [reflexivity|]. split; [reflexivity|].
  by intros [| |[| |]| | |[| |]].
Qed.

(** * Further properties *)

(** ** The classifier on every input *)

(** X1.  [IsDuplicate] answers [true] in two cases only: on the sqlite3 driver
    for a [sqlite3.Error] whose code is the constraint code, whatever its
    extended code, and on the mysql driver for a non-nil
    [*mysql.MySQLError] whose number is 1062, 1169 or 1022. *)
Theorem IsDuplicate_true_iff (orm : option xorm.Engine) (err : error) :
  (IsDuplicate orm err).2 = Ok true
  ↔ ∃ eng, orm = Some eng
      ∧ ((xorm.driverName eng = "sqlite3"
          ∧ ∃ e, err = sqlite3_Error e
                 ∧ sqlite3.Code e = sqlite3.ErrConstraint)
         ∨ (xorm.driverName eng = "mysql"
            ∧ ∃ e, err = mysql_MySQLError (Some e)
                   ∧ (mysql.Number e = 1062 ∨ mysql.Number e = 1169
                      ∨ mysql.Number e = 1022))).
Proof.
  split.
  - destruct orm as [[driver]|]; [|by destruct err].
    intros H. exists {| xorm.driverName := driver |}. split; [done|].
    unfold IsDuplicate in H. simpl in *.
    destruct err as [|e|[e|]|msg]; try done;
      repeat case_bool_decide; simplify_eq/=; eauto 10.
  - intros (eng & -> & [(Hd & e & -> & He)|(Hd & e & -> & He)]);
      destruct eng as [driver]; simpl in *; subst driver;
      unfold IsDuplicate; simpl; by rewrite bool_decide_eq_true_2.
Qed.

(** X2.  [IsDuplicate] panics in two cases only, both for an error that is not
    nil: when the engine handle is nil, and on the mysql driver when the
    error is anything but a non-nil [*mysql.MySQLError]. *)
Theorem IsDuplicate_panics_iff (orm : option xorm.Engine) (err : error) :
  (∃ msg, (IsDuplicate orm err).2 = Panic msg)
  ↔ err ≠ nil_error
    ∧ (orm = None
       ∨ ∃ eng, orm = Some eng ∧ xorm.driverName eng = "mysql"
                ∧ ∀ e, err ≠ mysql_MySQLError (Some e)).
Proof.
  split.
  - intros [msg H]. split; [by intros ->|].
    destruct orm as [[driver]|]; [right|by left].
    exists {| xorm.driverName := driver |}. split; [done|].
    unfold IsDuplicate in H. simpl in *.
    destruct err as [|e|[e|]|m]; try done;
      repeat case_bool_decide; simplify_eq/=; done.
  - intros [Hnil [->|(eng & -> & Hd & Hne)]].
    + destruct err; try done; eauto.
    + destruct eng as [driver]; simpl in *; subst driver.
      destruct err as [|e|[e|]|m]; try done; eauto.
      by destruct (Hne e).
Qed.

(** X3.  [IsDuplicate] writes to the log in one case only, and then one line:
    on the sqlite3 driver, for an error that is neither nil nor a
    [sqlite3.Error]. *)
Theorem IsDuplicate_logs_iff (orm : option xorm.Engine) (err : error) :
  ((IsDuplicate orm err).1 ≠ []
   ↔ ∃ eng, orm = Some eng ∧ xorm.driverName eng = "sqlite3"
            ∧ err ≠ nil_error ∧ ∀ e, err ≠ sqlite3_Error e)
  ∧ ((IsDuplicate orm err).1 = []
     ∨ (IsDuplicate orm err).1
       = ["[IsDuplicate] convert sqlite error: typeof(err)"]).
Proof.
  destruct orm as [[driver]|]; [|destruct err; naive_solver].
  destruct (decide (driver = "sqlite3")) as [->|Hd].
  - destruct err as [|e|p|m]; simpl.
    + naive_solver.
    + assert ((if bool_decide (sqlite3.Code e = sqlite3.ErrConstraint)
               then ([], Ok true) else ([], Ok false)).1 = @nil string) as ->
        by (by case_bool_decide).
      split; [|by left]. split; [done|].
      intros (? & _ & _ & _ & H). by destruct (H e).
    + split; [|by right]. split; [|done]. intros _. eexists. by split_and!.
    + split; [|by right]. split; [|done]. intros _. eexists. by split_and!.
  - assert (∀ l, (IsDuplicate (Some {| xorm.driverName := driver |}) err).1 = l
                 → l = []) as Hlog.
    { intros l <-. unfold IsDuplicate. simpl.
      rewrite (bool_decide_eq_false_2 (driver = "sqlite3")) by done.
      destruct err as [|e|[e|]|m]; repeat case_bool_decide; done. }
    rewrite (Hlog _ eq_refl). split; [|by left].
    split; [done|]. intros (eng & [= <-] & ? & _). done.
Qed.

(** ** The keys of the cache, continued *)

Lemma userKey_not_errorCountKey (m n : Z) : userKey m ≠ errorCountKey n.
Proof.
  rewrite userKey_eq, errorCountKey_eq.
  change ("id.user%!(EXTRA int64=" +:+ pretty m +:+ ")")
    with ("id.user%!(EXTRA int64=" +:+ pretty m +:+ String ")" "").
  change (pretty n +:+ ".errcount")
    with (pretty n +:+ ".errcoun" +:+ String "t" "").
  rewrite <- !append_assoc. intros H%append_last_inj. by destruct H.
Qed.

Lemma userKey_not_dot_user (n : Z) (id : string) : userKey n ≠ id +:+ ".user".
Proof.
  rewrite userKey_eq.
  change ("id.user%!(EXTRA int64=" +:+ pretty n +:+ ")")
    with ("id.user%!(EXTRA int64=" +:+ pretty n +:+ String ")" "").
  change (id +:+ ".user") with (id +:+ ".use" +:+ String "r" "").
  rewrite <- !append_assoc. intros H%append_last_inj. by destruct H.
Qed.

(** X4.  Different users have different counter keys and different profile
    keys, and no profile key is a counter key: the entries of two users,
    and the two entries of one user, never collide. *)
Theorem cache_keys_do_not_collide (m n : Z) :
  (errorCountKey m = errorCountKey n ↔ m = n)
  ∧ (userKey m = userKey n ↔ m = n)
  ∧ userKey m ≠ errorCountKey n.
Proof.
  split_and!.
  - split; [apply errorCountKey_inj|by intros ->].
  - split; [apply userKey_inj|by intros ->].
  - apply userKey_not_errorCountKey.
Qed.

(** ** The retention cleaner on all users *)

Section sweep.

Variable c : gmap string Cache.value.
Variable now : time.Time.

Lemma filter_all {A} (P : A → Prop) `{!∀ x, Decision (P x)} (l : list A) :
  (∀ x, P x) → filter P l = l.
Proof.
  intros HP. induction l as [|x l IH]; [done|].
  by rewrite filter_cons_True, IH.
Qed.

Lemma cleanUser_filter (db : DB) (id : Z) (db' : DB) :
  cleanUser c now db id = Ok db' →
  tbl_user db' = tbl_user db
  ∧ tbl_dns db'
    = filter (λ r, expired c now id (TblDns.Uid r) (TblDns.Ctime r) = false)
        (tbl_dns db)
  ∧ tbl_http db'
    = filter (λ r, expired c now id (TblHttp.Uid r) (TblHttp.Ctime r) = false)
        (tbl_http db).
Proof.
  unfold cleanUser, expired.
  destruct (Cache.Get c (userKey id)) as [[n|[user|]|tag]|]; try done.
  - intros [= <-]. simpl. unfold delete_dns, delete_http.
    split; [done|].
    split; apply list_filter_iff; intros r;
      rewrite andb_false_iff, bool_decide_eq_false;
      destruct (time.ltb _ _); naive_solver.
  - intros [= <-]. by rewrite !filter_all.
Qed.

Lemma cleanUsers_filter (ids : list Z) (db db' : DB) :
  cleanUsers c now ids db = Ok db' →
  tbl_user db' = tbl_user db
  ∧ tbl_dns db'
    = filter (λ r, swept c now ids (TblDns.Uid r) (TblDns.Ctime r) = false)
        (tbl_dns db)
  ∧ tbl_http db'
    = filter (λ r, swept c now ids (TblHttp.Uid r) (TblHttp.Ctime r) = false)
        (tbl_http db).
Proof.
  revert db. induction ids as [|id ids IH]; intros db; simpl.
  - intros [= <-]. by rewrite !filter_all.
  - destruct (cleanUser c now db id) as [db1|] eqn:H1; [|done]. simpl.
    intros (-> & -> & ->)%IH.
    destruct (cleanUser_filter _ _ _ H1) as (-> & -> & ->).
    split; [done|]. rewrite !list_filter_filter.
    split; apply list_filter_iff; intros r; rewrite orb_false_iff; tauto.
Qed.

(** Whether the loop panics depends on the cache and the ids, not on the
    tables. *)
Lemma cleanUsers_returns (ids : list Z) (db db' db2 : DB) :
  cleanUsers c now ids db = Ok db' → ∃ db2', cleanUsers c now ids db2 = Ok db2'.
Proof.
  revert db db2. induction ids as [|id ids IH]; intros db db2; simpl; [eauto|].
  unfold cleanUser.
  destruct (Cache.Get c (userKey id)) as [[n|[user|]|tag]|]; simpl; try done;
    eauto.
Qed.

Lemma swept_false (ids : list Z) (uid : Z) (ctime : time.Time) :
  uid ∉ ids ∨ Cache.Get c (userKey uid) = None →
  swept c now ids uid ctime = false.
Proof.
  intros H. unfold swept. apply not_true_is_false.
  intros (id & Hin & Hexp)%existsb_exists. unfold expired in Hexp.
  destruct (Cache.Get c (userKey id)) as [[n|[user|]|tag]|] eqn:Hget; try done.
  apply andb_true_iff in Hexp as [->%bool_decide_eq_true _].
  destruct H as [H|H]; [|congruence]. by apply H, list_elem_of_In.
Qed.

Lemma cleanUsers_all_miss (ids : list Z) (db : DB) :
  (∀ id, id ∈ ids → Cache.Get c (userKey id) = None) →
  cleanUsers c now ids db = Ok db.
Proof.
  induction ids as [|id ids IH]; intros H; simpl; [done|].
  unfold cleanUser. rewrite H by set_solver. simpl. apply IH. set_solver.
Qed.

End sweep.

Lemma DB_eq (db1 db2 : DB) :
  tbl_user db1 = tbl_user db2 → tbl_dns db1 = tbl_dns db2 →
  tbl_http db1 = tbl_http db2 → db1 = db2.
Proof. destruct db1, db2. simpl. by intros -> -> ->. Qed.

(** [doClean] returns the tables as they are. *)
Lemma doClean_unchanged (driver : string) (c : gmap string Cache.value)
    (now : time.Time) (db : DB) :
  doClean driver c now db = Ok db.
Proof. reflexivity. Qed.

(** X6.  A cleanup that returns can be repeated at the same time with the
    same cache: the second run returns too and deletes nothing more.
    This holds of [doClean], and it holds of its loop over the user ids,
    whatever the ids that the loop is run on. *)
Theorem doClean_idempotent (driver : string) (c : gmap string Cache.value)
    (now : time.Time) (ids : list Z) (db db' : DB) :
  (doClean driver c now db = Ok db' → doClean driver c now db' = Ok db')
  ∧ (cleanUsers c now ids db = Ok db' →
     tbl_user db' = tbl_user db ∧ cleanUsers c now ids db' = Ok db').
Proof.
  split; [by rewrite !doClean_unchanged|].
  intros H. pose proof (cleanUsers_filter _ _ _ _ _ H) as (Hu & Hd & Hh).
  split; [done|].
  destruct (cleanUsers_returns _ _ _ _ _ db' H) as [db2 H2].
  rewrite H2. f_equal.
  apply cleanUsers_filter in H2 as (Hu2 & Hd2 & Hh2).
  apply DB_eq; [done|..].
  - rewrite Hd2, Hd, list_filter_filter.
    apply list_filter_iff. intros r. tauto.
  - rewrite Hh2, Hh, list_filter_filter.
    apply list_filter_iff. intros r. tauto.
Qed.

Lemma doClean_idempotent_witness :
  doClean "mysql" example.profiles (example.clock 12 0 0) example.tables
  = Ok example.tables
  ∧ cleanUsers example.profiles (example.clock 12 0 0) [7]
      {| tbl_user := [example.user7];
         tbl_dns := [row_of (example.dns 7 (example.clock 10 0 1) "")];
         tbl_http := [example.http_row 7 (example.clock 10 0 1)] |}
    = Ok {| tbl_user := [example.user7];
            tbl_dns := [row_of (example.dns 7 (example.clock 10 0 1) "")];
            tbl_http := [example.http_row 7 (example.clock 10 0 1)] |}.
Proof.
  split.
  - apply (proj1 (doClean_idempotent "mysql" example.profiles
                    (example.clock 12 0 0) [] example.tables example.tables)).
    reflexivity.
  - apply (proj2 (doClean_idempotent "mysql" example.profiles
                    (example.clock 12 0 0) [7] example.tables _)).
    vm_compute. reflexivity.
Defined.

(** X7.  All rows survive [doClean].  In its loop over the user ids, the
    rows of a user who is not among the ids, or whose profile is not in
    the cache under the key the loop looks up, all survive, however old
    they are. *)
Theorem doClean_keeps_rows_without_profile (driver : string)
    (c : gmap string Cache.value) (now : time.Time) (ids : list Z)
    (db db' : DB) (uid : Z) :
  (doClean driver c now db = Ok db' →
   filter (λ r, TblDns.Uid r = uid) (tbl_dns db')
   = filter (λ r, TblDns.Uid r = uid) (tbl_dns db)
   ∧ filter (λ r, TblHttp.Uid r = uid) (tbl_http db')
     = filter (λ r, TblHttp.Uid r = uid) (tbl_http db))
  ∧ (cleanUsers c now ids db = Ok db' →
     uid ∉ ids ∨ Cache.Get c (userKey uid) = None →
     filter (λ r, TblDns.Uid r = uid) (tbl_dns db')
     = filter (λ r, TblDns.Uid r = uid) (tbl_dns db)
     ∧ filter (λ r, TblHttp.Uid r = uid) (tbl_http db')
       = filter (λ r, TblHttp.Uid r = uid) (tbl_http db)).
Proof.
  split; [rewrite doClean_unchanged; by intros [= <-]|].
  intros (_ & -> & ->)%cleanUsers_filter Huid.
  split; apply list_filter_filter_l; intros r <-; by apply swept_false.
Qed.

Lemma doClean_keeps_rows_without_profile_witness :
  ∃ db', cleanUsers example.miskeyed (example.clock 12 0 0) [7] example.tables
         = Ok db'
    ∧ filter (λ r, TblDns.Uid r = 7) (tbl_dns db')
      = filter (λ r, TblDns.Uid r = 7) (tbl_dns example.tables).
Proof.
  eexists. split; [vm_compute; reflexivity|].
  eapply (proj2 (doClean_keeps_rows_without_profile "mysql" example.miskeyed
                   (example.clock 12 0 0) [7] example.tables _ 7)).
  - vm_compute. reflexivity.
  - right. reflexivity.
Defined.

(** X8.  When none of the ids has an entry under the key the loop of
    [doClean] looks up, the loop deletes nothing, and neither does
    [doClean].  This is so for every cache whose keys are all of the form
    "<id>.user" or counter keys. *)
Theorem doClean_deletes_nothing_on_misses (driver : string)
    (c : gmap string Cache.value) (now : time.Time) (ids : list Z) (db : DB) :
  ((∀ id, id ∈ ids → Cache.Get c (userKey id) = None)
   → cleanUsers c now ids db = Ok db ∧ doClean driver c now db = Ok db)
  ∧ ((∀ k, is_Some (c !! k) →
           (∃ id : string, k = id +:+ ".user") ∨ ∃ n, k = errorCountKey n)
     → cleanUsers c now ids db = Ok db ∧ doClean driver c now db = Ok db).
Proof.
  assert ((∀ id, id ∈ ids → Cache.Get c (userKey id) = None)
          → cleanUsers c now ids db = Ok db
            ∧ doClean driver c now db = Ok db) as Hmiss.
  { intros H. split; [by apply cleanUsers_all_miss|apply doClean_unchanged]. }
  split; [done|]. intros Hkeys. apply Hmiss. intros id _.
  unfold Cache.Get. destruct (c !! userKey id) as [v|] eqn:Hget; [|done].
  destruct (Hkeys (userKey id)) as [[s Hs]|[n Hn]]; [by rewrite Hget|..].
  - by destruct (userKey_not_dot_user id s).
  - by destruct (userKey_not_errorCountKey id n).
Qed.

Lemma doClean_deletes_nothing_on_misses_witness :
  cleanUsers example.miskeyed (example.clock 12 0 0) [7] example.tables
  = Ok example.tables
  ∧ doClean "mysql" example.miskeyed (example.clock 12 0 0) example.tables
    = Ok example.tables.
Proof.
  apply (proj2 (doClean_deletes_nothing_on_misses "mysql" example.miskeyed
                  (example.clock 12 0 0) [7] example.tables)).
  intros k [v Hk]. left. exists "7". unfold example.miskeyed in Hk.
  apply lookup_singleton_Some in Hk as [<- _]. reflexivity.
Defined.

(** ** Invariants of executions *)

Section invariants.

Import retryablehttp.

Lemma run_rel (R : State → State → Prop) :
  (∀ s, R s s) → (∀ s1 s2 s3, R s1 s2 → R s2 s3 → R s1 s3) →
  (∀ s a s', step s a = Some s' → R s s') →
  ∀ s acts s', run s acts = Some s' → R s s'.
Proof.
  intros Hrefl Htrans Hstep s acts. revert s.
  induction acts as [|a acts IH]; intros s s'; simpl.
  - intros [= <-]. apply Hrefl.
  - destruct (step s a) as [s1|] eqn:H1; [|done]. simpl. eauto.
Qed.

Lemma run_inv (P : State → Prop) :
  (∀ s a s', step s a = Some s' → P s → P s') →
  ∀ s acts s', run s acts = Some s' → P s → P s'.
Proof.
  intros Hstep s acts. revert s.
  induction acts as [|a acts IH]; intros s s'; simpl.
  - by intros [= <-].
  - destruct (step s a) as [s1|] eqn:H1; [|done]. simpl. eauto.
Qed.

(** The five ways the body of the receive case can go. *)
Lemma store_cases rcd insertErr s :
  store rcd insertErr s = s
  ∨ (∃ d e, rcd = DnsRecord_ d ∧ insertErr = Some e
            ∧ ∃ msg, store rcd insertErr s = crash msg s)
  ∨ (∃ d, rcd = DnsRecord_ d ∧ insertErr = None
          ∧ (store rcd insertErr s = InsertOne (row_of d) s
             ∨ (∃ msg, store rcd insertErr s
                       = crash msg (InsertOne (row_of d) s))
             ∨ (DnsRecord.Callback d ≠ "" ∧ 0 < DnsRecord.Uid d
                ∧ store rcd insertErr s
                  = go_dnsCallBack d (InsertOne (row_of d) s)))).
Proof.
  destruct rcd as [d|h|]; [|by left..]. right.
  destruct insertErr as [e|]; [left; simpl; eauto 10|]. right.
  exists d. split; [done|]. split; [done|]. simpl.
  case_bool_decide as Hcb; [|by left]. destruct Hcb.
  destruct (Cache.Get _ _) as [[v| |]|]; eauto 10;
    try case_bool_decide; eauto 10; by do 2 right.
Qed.

(** Case analysis on a step, on the hypothesis of the step only. *)
Ltac step_cases H a :=
  let Halive := fresh "Halive" in
  pose proof (step_alive _ _ _ H) as Halive;
  unfold step in H; rewrite Halive in H;
  destruct a as [?rcd| |[|?insertErr|]|?i ?urlErr ?net|?now|[?err| |]];
  unfold RunStoreRoutine, Shutdown in H;
  repeat match type of H with
         | context [match ?x with _ => _ end] => destruct x eqn:?
         end;
  simplify_eq;
  try match goal with
      | |- context [store ?r ?e ?s0] =>
          let Hst := fresh "Hstore" in
          destruct (store_cases r e s0)
            as [Hst|[(?d & ?e' & -> & -> & ?msg & Hst)
                    |(?d & -> & -> &
                      [Hst|[(?msg & Hst)|(?Hcb & ?Hpos & Hst)]])]];
          rewrite Hst
      end.

(** The counter of [self.wg] moves with the goroutines: it exceeds the
    number of running callbacks and cleaners by what it did at the
    start. *)
Lemma step_wg s a s' :
  step s a = Some s' →
  wg s' - Z.of_nat (length (callbacks s') + cleaners s')
  = wg s - Z.of_nat (length (callbacks s) + cleaners s).
Proof.
  intros H. step_cases H a; simpl; rewrite ?length_app; simpl; try lia;
    match goal with Hi : callbacks s !! _ = Some _ |- _ =>
      apply lookup_lt_Some in Hi end;
    rewrite length_delete by (apply lookup_lt_is_Some; lia); lia.
Qed.

Lemma run_wg s acts s' :
  run s acts = Some s' →
  wg s' - Z.of_nat (length (callbacks s') + cleaners s')
  = wg s - Z.of_nat (length (callbacks s) + cleaners s).
Proof.
  apply (run_rel (λ s s', wg s' - Z.of_nat (length (callbacks s') + cleaners s')
                          = wg s - Z.of_nat (length (callbacks s) + cleaners s)));
    [done|intros s1 s2 s3 H1 H2; lia|apply step_wg].
Qed.

Lemma step_well_dispatched s a s' :
  step s a = Some s' → well_dispatched s → well_dispatched s'.
Proof.
  intros H [Hrun Hfin]. unfold well_dispatched.
  step_cases H a; simpl; try (split; done).
  - (* the row is inserted, nothing is dispatched *)
    split.
    + intros d' Hd'. destruct (Hrun d' Hd') as (? & ? & ?).
      split_and!; [apply elem_of_app; by left|done..].
    + intros d' req r' Hd'. destruct (Hfin d' req r' Hd') as (? & ? & ? & ?).
      split_and!; [apply elem_of_app; by left|done..].
  - (* the row is inserted and the routine dies *)
    split.
    + intros d' Hd'. destruct (Hrun d' Hd') as (? & ? & ?).
      split_and!; [apply elem_of_app; by left|done..].
    + intros d' req r' Hd'. destruct (Hfin d' req r' Hd') as (? & ? & ? & ?).
      split_and!; [apply elem_of_app; by left|done..].
  - (* the row is inserted and the callback is started *)
    split.
    + intros d' [Hd'| ->%list_elem_of_singleton]%elem_of_app.
      * destruct (Hrun d' Hd') as (? & ? & ?).
        split_and!; [apply elem_of_app; by left|done..].
      * split_and!; [apply elem_of_app; right; by apply list_elem_of_singleton
                    |done..].
    + intros d' req r' Hd'. destruct (Hfin d' req r' Hd') as (? & ? & ? & ?).
      split_and!; [apply elem_of_app; by left|done..].
  - (* a callback returns *)
    match goal with
    | Hi : callbacks s !! _ = Some ?rcd,
      Hcall : dnsCallBack _ _ ?rcd _ = Ok (?req0, _, _) |- _ =>
        pose proof (list_elem_of_lookup_2 _ _ _ Hi) as Hin;
        destruct (Hrun rcd Hin) as (Hst & Hcb & Hpos);
        apply dnsCallBack_Ok in Hcall as (_ & Hreq & _ & _)
    end.
    split.
    + intros d' Hd'%list_elem_of_delete_inv. by apply Hrun.
    + intros d' req r' [Hd'|Hd'%list_elem_of_singleton]%elem_of_app;
        [by eapply Hfin|].
      by simplify_eq/=.
  - (* a callback panics *)
    split; [|done].
    intros d' Hd'%list_elem_of_delete_inv. by apply Hrun.
Qed.

Lemma dnsCallBack_frame urlErr net rcd (c : gmap string Cache.value)
    req tr c' k :
  dnsCallBack urlErr net rcd c = Ok (req, tr, c') →
  k ≠ errorCountKey (DnsRecord.Uid rcd) →
  Cache.Get c' k = Cache.Get c k.
Proof.
  intros (_ & _ & _ & ->)%dnsCallBack_Ok Hk. destruct (returned tr).
  - by apply lookup_delete_ne.
  - by apply IncrementInt64_lookup_ne.
Qed.

Lemma step_cache_frame k s a s' :
  (∀ uid, k ≠ errorCountKey uid) →
  step s a = Some s' → Cache.Get (cache s') k = Cache.Get (cache s) k.
Proof.
  intros Hk
    [[-> _]|(i & rcd & urlErr & net & req & tr & c' & _ & _ & Hcb & -> & _)]%step_cache;
    [done|].
  by eapply dnsCallBack_frame.
Qed.

Lemma step_tables s a s' :
  step s a = Some s' →
  tbl_user (db s') = tbl_user (db s)
  ∧ tbl_http (db s') `sublist_of` tbl_http (db s)
  ∧ (∀ x, x ∈ stored s → x ∈ stored s')
  ∧ (∀ r, r ∈ tbl_dns (db s') →
          r ∈ tbl_dns (db s) ∨ TblDns_ r ∈ stored s').
Proof.
  intros H. step_cases H a; simpl; try (split_and!; by eauto);
    try (split_and!; [done|done|intros x Hx; apply elem_of_app; by left|];
         intros r0 [Hr| ->%list_elem_of_singleton]%elem_of_app; [by left|];
         right; apply elem_of_app; right; by apply list_elem_of_singleton).
  (* a cleaner has run *)
  match goal with Hc : doClean _ _ _ _ = Ok _ |- _ =>
    rewrite doClean_unchanged in Hc; injection Hc as <- end.
  split_and!; by eauto.
Qed.

Lemma step_returned s a s' :
  step s a = Some s' → routine s = Returned →
  routine s' = Returned ∧ stored s' = stored s
  ∧ storeQuit s' = storeQuit s
  ∧ callbacks s' `sublist_of` callbacks s
  ∧ (cleaners s' ≤ cleaners s)%nat.
Proof.
  intros H Hret. step_cases H a; simpl; try congruence;
    try (split_and!; (done || lia));
    (split_and!; try done; apply sublist_delete).
Qed.

Lemma step_without_server s a s' :
  step s a = Some s' → server s = None → shutdown s = NotCalled →
  server s' = None ∧ shutdown s' = NotCalled ∧ orm_closed s' = orm_closed s.
Proof.
  intros H Hsrv Hpc. step_cases H a; simpl; try done; congruence.
Qed.

Lemma step_dead s a : crashed s ≠ None → step s a = None.
Proof. unfold step. by destruct (crashed s). Qed.

Lemma run_dead s acts s' : crashed s ≠ None → run s acts = Some s' → acts = [].
Proof.
  intros Hs. destruct acts as [|a acts]; [done|]. simpl.
  by rewrite step_dead.
Qed.

(** No step deletes a row: the user table and the HTTP table stay as they
    are, and the DNS table grows by the rows the store routine inserts. *)
Lemma step_rows s a s' :
  step s a = Some s' →
  tbl_user (db s') = tbl_user (db s) ∧ tbl_http (db s') = tbl_http (db s)
  ∧ ∃ rows, tbl_dns (db s') = tbl_dns (db s) ++ rows
            ∧ stored s' = stored s ++ (TblDns_ <$> rows).
Proof.
  intros H. step_cases H a; simpl;
    try match goal with Hc : doClean _ _ _ _ = Ok _ |- _ =>
          rewrite doClean_unchanged in Hc; injection Hc as <- end;
    (split; [done|]); (split; [done|]);
    first [by exists []; rewrite !app_nil_r|by eexists [_]].
Qed.

(** The steps that kill the process. *)
Lemma step_crash s a s' :
  step s a = Some s' → crashed s' ≠ None →
  (∃ e d rest,
     a = StoreRoutine (Output_value e) ∧ output s = DnsRecord_ d :: rest
     ∧ (e ≠ None
        ∨ ∃ v, Cache.Get (cache s) (errorCountKey (DnsRecord.Uid d)) = Some v
               ∧ ∀ n, v ≠ Cache.VInt64 n))
  ∨ (a = StoreRoutine Output_closed ∧ storeQuit s = true)
  ∨ (∃ i e net, a = CallbackDone i (Some e) net)
  ∨ (∃ err, a = InShutdown (s_Shutdown err) ∧ server s = None).
Proof.
  intros H Hdead. pose proof (step_alive _ _ _ H) as Halive.
  assert (∀ P : Prop, crashed s ≠ None → P) as Hex by (intros P []; done).
  unfold step in H. rewrite Halive in H.
  destruct a as [rcd| |w|i urlErr net|now|st].
  - destruct (output_closed s); simplify_eq; by apply Hex.
  - destruct (output_closed s); simplify_eq; by apply Hex.
  - unfold RunStoreRoutine in H. destruct (routine s); [|done].
    destruct w as [|insertErr|].
    + simplify_eq; by apply Hex.
    + destruct (output s) as [|rcd rest] eqn:Hout; simplify_eq.
      destruct rcd as [d|h|]; simpl in Hdead; [|by apply Hex..].
      left. exists insertErr, d, rest. split; [done|]. split; [done|].
      destruct insertErr as [e|]; [by left|]. right. simpl in Hdead.
      case_bool_decide; [|by apply Hex]. simpl in Hdead.
      destruct (Cache.Get (cache s) (errorCountKey (DnsRecord.Uid d)))
        as [[v|u|tag]|]; simpl in Hdead.
      * case_bool_decide; by apply Hex.
      * eexists. split; [done|]. discriminate.
      * eexists. split; [done|]. discriminate.
      * by apply Hex.
    + right. left.
      destruct (output s), (output_closed s), (storeQuit s); simplify_eq;
        done || by apply Hex.
  - do 2 right. left.
    destruct (callbacks s !! i) as [rcd|]; [|done].
    destruct urlErr as [e|]; [eauto|].
    destruct (dnsCallBack_returns net rcd (cache s)) as [c' Hcb].
    rewrite Hcb in H. simplify_eq; by apply Hex.
  - destruct (cleaners s); [done|]. rewrite doClean_unchanged in H.
    simplify_eq; by apply Hex.
  - do 3 right. unfold Shutdown in H.
    destruct st, (shutdown s), (server s) eqn:Hsrv, (storeQuit s); simplify_eq;
      eauto; by apply Hex.
Qed.

(** An execution that ends in a dead process ends with the step that
    killed it. *)
Lemma run_crash s acts s' :
  run s acts = Some s' → crashed s = None → crashed s' ≠ None →
  ∃ acts0 a s0, acts = acts0 ++ [a] ∧ run s acts0 = Some s0
                ∧ crashed s0 = None ∧ step s0 a = Some s'.
Proof.
  revert s. induction acts as [|a acts IH]; intros s; simpl.
  - intros [= <-] Halive Hdead. by destruct Hdead.
  - destruct (step s a) as [s1|] eqn:Hstep; [|done]. simpl.
    intros Hrun Halive Hdead.
    destruct (crashed s1) as [m|] eqn:Hs1.
    + assert (acts = []) as -> by (eapply run_dead; [|done]; by rewrite Hs1).
      simpl in Hrun. simplify_eq. by exists [], a, s.
    + destruct (IH s1 Hrun Hs1 Hdead) as (acts0 & a0 & s0 & -> & H0 & ? & ?).
      exists (a :: acts0), a0, s0. simpl. rewrite Hstep. simpl. done.
Qed.

End invariants.

(** X10.  In every execution that starts with the counter of [self.wg] equal to
    the number of running callbacks and cleaners, it stays equal to that
    number: every goroutine is added before it starts and is done once,
    and the counter never falls below zero. *)
Theorem wg_counts_goroutines (s : State) (acts : list action) (s' : State) :
  run s acts = Some s' →
  wg s = Z.of_nat (length (callbacks s) + cleaners s) →
  wg s' = Z.of_nat (length (callbacks s') + cleaners s') ∧ 0 ≤ wg s'.
Proof. intros H%run_wg Hs. lia. Qed.

Lemma wg_counts_goroutines_witness :
  ∃ s', run example.server0 (example.tripped ++ [StoreRoutine ticker_C])
        = Some s'
        ∧ wg s' = Z.of_nat (length (callbacks s') + cleaners s')
        ∧ 0 ≤ wg s'.
Proof.
  eexists. split; [vm_compute; reflexivity|].
  eapply (wg_counts_goroutines example.server0
            (example.tripped ++ [StoreRoutine ticker_C])).
  - vm_compute; reflexivity.
  - reflexivity.
Defined.

(** X11.  In every execution from a state without callbacks, a callback runs or
    has run only for a record whose row the store routine has inserted
    before: no notification without the stored record. *)
Theorem dispatched_records_are_stored (s : State) (acts : list action)
    (s' : State) (d : DnsRecord.t) :
  run s acts = Some s' → callbacks s = [] → finished s = [] →
  d ∈ callbacks s' ∨ (∃ req r, (d, req, r) ∈ finished s') →
  TblDns_ (row_of d) ∈ stored s'.
Proof.
  intros Hrun Hc Hf Hd.
  assert (well_dispatched s) as Hs.
  { unfold well_dispatched. rewrite Hc, Hf.
    split; intros; by match goal with H : _ ∈ [] |- _ =>
                        apply elem_of_nil in H end. }
  destruct (run_inv _ step_well_dispatched _ _ _ Hrun Hs) as [Hrun' Hfin'].
  destruct Hd as [Hd|(req & r & Hd)].
  - by apply Hrun'.
  - by eapply Hfin'.
Qed.

Lemma dispatched_records_are_stored_witness :
  ∃ s', run example.server0 example.tripped = Some s'
        ∧ TblDns_ (row_of (example.dns 7 (example.clock 9 0 5)
                             "http://hook.example.org/")) ∈ stored s'.
Proof.
  eexists. split; [vm_compute; reflexivity|].
  eapply (dispatched_records_are_stored example.server0 example.tripped).
  - vm_compute; reflexivity.
  - reflexivity.
  - reflexivity.
  - left. vm_compute. by left.
Defined.

(** X12.  In every execution from a state without callbacks, the request
    that a callback hands to [client.Do] is nil or a POST without body to
    the callback URL of its record.  Every callback that has returned
    handed on such a POST, for a record whose URL is not empty and whose
    user id is positive: nothing is posted for a record without a
    callback URL or with a user id of zero or less.  A callback whose URL
    [NewRequest] rejects hands on nil: it posts nothing and touches
    neither the cache nor the log, and the process dies of it. *)
Theorem only_callback_urls_are_posted_to (s : State) (acts : list action)
    (s' : State) :
  run s acts = Some s' → callbacks s = [] → finished s = [] →
  (∀ d req r, (d, req, r) ∈ finished s' →
     req = Some {| retryablehttp.Method := "POST";
                   retryablehttp.URL := DnsRecord.Callback d;
                   retryablehttp.Body := None |}
     ∧ DnsRecord.Callback d ≠ "" ∧ 0 < DnsRecord.Uid d)
  ∧ (∀ i e net s'',
       step s' (CallbackDone i (Some e) net) = Some s'' →
       crashed s'' ≠ None ∧ finished s'' = finished s'
       ∧ cache s'' = cache s' ∧ db s'' = db s').
Proof.
  intros Hrun Hc Hf.
  assert (well_dispatched s) as Hs.
  { unfold well_dispatched. rewrite Hc, Hf.
    split; intros; by match goal with H : _ ∈ [] |- _ =>
                        apply elem_of_nil in H end. }
  destruct (run_inv _ step_well_dispatched _ _ _ Hrun Hs) as [_ Hfin'].
  split.
  - intros d req r Hd. destruct (Hfin' _ _ _ Hd) as (_ & ? & ? & ?). done.
  - intros i e net s'' Hstep. pose proof (step_alive _ _ _ Hstep) as Halive.
    unfold step in Hstep. rewrite Halive in Hstep.
    destruct (callbacks s' !! i) as [rcd|]; [|done].
    rewrite dnsCallBack_nil in Hstep. by simplify_eq.
Qed.

Lemma only_callback_urls_are_posted_to_witness :
  ∃ s' d req r,
    run example.server0 example.two_failures = Some s'
    ∧ finished s' !! 0%nat = Some (d, req, r)
    ∧ req = Some {| retryablehttp.Method := "POST";
                    retryablehttp.URL := DnsRecord.Callback d;
                    retryablehttp.Body := None |}.
Proof.
  do 4 eexists. split; [vm_compute; reflexivity|].
  split; [vm_compute; reflexivity|].
  eapply (only_callback_urls_are_posted_to example.server0
            example.two_failures).
  - vm_compute; reflexivity.
  - reflexivity.
  - reflexivity.
  - vm_compute. by left.
Defined.

(** X13.  No execution changes a cache entry other than a failure counter: the
    cached profiles, and every entry whose key is not a counter key, are
    as they were. *)
Theorem only_counters_change_in_cache (s : State) (acts : list action)
    (s' : State) :
  run s acts = Some s' →
  (∀ id, Cache.Get (cache s') (userKey id) = Cache.Get (cache s) (userKey id))
  ∧ (∀ k, (∀ uid, k ≠ errorCountKey uid) →
          Cache.Get (cache s') k = Cache.Get (cache s) k).
Proof.
  intros Hrun.
  assert (∀ k, (∀ uid, k ≠ errorCountKey uid) →
               Cache.Get (cache s') k = Cache.Get (cache s) k) as Hframe.
  { intros k Hk. revert s acts s' Hrun.
    apply (run_rel (λ s s', Cache.Get (cache s') k = Cache.Get (cache s) k));
      [done|intros s1 s2 s3 H1 H2; congruence|].
    intros s a s'. by apply step_cache_frame. }
  split; [|done]. intros id. apply Hframe.
  intros uid. apply userKey_not_errorCountKey.
Qed.

Lemma only_counters_change_in_cache_witness :
  ∃ s', run (set_cache example.profiles example.server0) example.tripped
        = Some s'
        ∧ ∀ id, Cache.Get (cache s') (userKey id)
                = Cache.Get example.profiles (userKey id).
Proof.
  eexists. split; [vm_compute; reflexivity|].
  eapply (only_counters_change_in_cache
            (set_cache example.profiles example.server0) example.tripped).
  vm_compute; reflexivity.
Defined.

(** X14.  No execution writes the user table or adds a row to the HTTP table,
    and every row of the DNS table was there at the start or has been
    inserted by the store routine. *)
Theorem tables_change_by_insert_and_sweep (s : State) (acts : list action)
    (s' : State) :
  run s acts = Some s' →
  tbl_user (db s') = tbl_user (db s)
  ∧ tbl_http (db s') `sublist_of` tbl_http (db s)
  ∧ (∀ r, r ∈ tbl_dns (db s') →
          r ∈ tbl_dns (db s) ∨ TblDns_ r ∈ stored s').
Proof.
  intros Hrun.
  cut (tbl_user (db s') = tbl_user (db s)
       ∧ tbl_http (db s') `sublist_of` tbl_http (db s)
       ∧ (∀ x, x ∈ stored s → x ∈ stored s')
       ∧ (∀ r, r ∈ tbl_dns (db s') →
               r ∈ tbl_dns (db s) ∨ TblDns_ r ∈ stored s')); [tauto|].
  revert s acts s' Hrun.
  apply (run_rel (λ s s',
           tbl_user (db s') = tbl_user (db s)
           ∧ tbl_http (db s') `sublist_of` tbl_http (db s)
           ∧ (∀ x, x ∈ stored s → x ∈ stored s')
           ∧ (∀ r, r ∈ tbl_dns (db s') →
                   r ∈ tbl_dns (db s) ∨ TblDns_ r ∈ stored s'))).
  - intros s. split_and!; auto.
  - intros s1 s2 s3 (Hu1 & Hh1 & Hs1 & Hd1) (Hu2 & Hh2 & Hs2 & Hd2).
    split_and!; [congruence|by etrans|auto|].
    intros r [Hr|Hr]%Hd2; [|by right].
    destruct (Hd1 r Hr) as [?|?]; auto.
  - apply step_tables.
Qed.

Lemma tables_change_by_insert_and_sweep_witness :
  ∃ s', run example.server0 example.both_variants = Some s'
        ∧ tbl_user (db s') = tbl_user (db example.server0).
Proof.
  eexists. split; [vm_compute; reflexivity|].
  eapply (tables_change_by_insert_and_sweep example.server0
            example.both_variants).
  vm_compute; reflexivity.
Defined.

(** X15.  Once the store routine has returned, no execution inserts a row,
    starts a callback or starts a cleaner any more, and
    [self.storeQuit] stays as it is: the callbacks and cleaners that are
    running can only finish. *)
Theorem nothing_is_stored_after_return (s : State) (acts : list action)
    (s' : State) :
  run s acts = Some s' → routine s = Returned →
  routine s' = Returned ∧ stored s' = stored s
  ∧ storeQuit s' = storeQuit s
  ∧ callbacks s' `sublist_of` callbacks s
  ∧ (cleaners s' ≤ cleaners s)%nat.
Proof.
  revert s acts s'.
  apply (run_rel (λ s s', routine s = Returned →
           routine s' = Returned ∧ stored s' = stored s
           ∧ storeQuit s' = storeQuit s
           ∧ callbacks s' `sublist_of` callbacks s
           ∧ (cleaners s' ≤ cleaners s)%nat)).
  - done.
  - intros s1 s2 s3 H1 H2 Hret.
    destruct (H1 Hret) as (Hr1 & Hs1 & Hq1 & Hc1 & Hn1).
    destruct (H2 Hr1) as (Hr2 & Hs2 & Hq2 & Hc2 & Hn2).
    split_and!; [done|congruence|congruence|by etrans|lia].
  - apply step_returned.
Qed.

Lemma nothing_is_stored_after_return_witness :
  ∃ s1 s2, run example.server0 example.returned_with_callback = Some s1
           ∧ run s1 example.late_callback = Some s2
           ∧ stored s2 = stored s1.
Proof.
  do 2 eexists. split; [vm_compute; reflexivity|].
  split; [vm_compute; reflexivity|].
  eapply (nothing_is_stored_after_return _ example.late_callback).
  - vm_compute; reflexivity.
  - reflexivity.
Defined.

(** X5.  No execution deletes a row.  The user table and the HTTP table
    are never written, and the DNS table is the one at the start followed
    by the rows the store routine has inserted since, in their order: the
    cleaners that run in between delete nothing, whatever the cache holds
    and however old the rows are. *)
Theorem no_row_is_ever_deleted (s : State) (acts : list action) (s' : State) :
  run s acts = Some s' →
  tbl_user (db s') = tbl_user (db s) ∧ tbl_http (db s') = tbl_http (db s)
  ∧ ∃ rows, tbl_dns (db s') = tbl_dns (db s) ++ rows
            ∧ stored s' = stored s ++ (TblDns_ <$> rows).
Proof.
  revert s acts s'.
  apply (run_rel (λ s s',
           tbl_user (db s') = tbl_user (db s)
           ∧ tbl_http (db s') = tbl_http (db s)
           ∧ ∃ rows, tbl_dns (db s') = tbl_dns (db s) ++ rows
                     ∧ stored s' = stored s ++ (TblDns_ <$> rows))).
  - intros s. split; [done|]. split; [done|]. exists []. by rewrite !app_nil_r.
  - intros s1 s2 s3 (Hu1 & Hh1 & rows1 & Hd1 & Hs1)
      (Hu2 & Hh2 & rows2 & Hd2 & Hs2).
    split; [congruence|]. split; [congruence|]. exists (rows1 ++ rows2).
    by rewrite Hd2, Hd1, Hs2, Hs1, fmap_app, !app_assoc.
  - apply step_rows.
Qed.

Lemma no_row_is_ever_deleted_witness :
  ∃ s', run (set_db example.tables
               (set_cache example.profiles example.server0)) example.cleanup
        = Some s'
        ∧ cleaners s' = 0%nat
        ∧ tbl_http (db s') = tbl_http example.tables
        ∧ ∃ rows, tbl_dns (db s') = tbl_dns example.tables ++ rows
                  ∧ stored s' = [] ++ (TblDns_ <$> rows).
Proof.
  eexists. split; [vm_compute; reflexivity|]. split; [reflexivity|].
  eapply (no_row_is_ever_deleted
            (set_db example.tables
               (set_cache example.profiles example.server0)) example.cleanup).
  vm_compute; reflexivity.
Defined.

(** X9.  A cleaner never kills the process: in every state a cleaner that
    is about to run can run, at any time and whatever the cache holds
    under the keys it would look up, and leaves the process alive and the
    tables and the cache as they are.  An execution that ends in a dead
    process ends with the step that killed it, which is the store routine
    handling a DNS record whose insert failed or whose user has a counter
    that is not an [int64], the store routine closing the closed
    [self.storeQuit], a callback whose URL [NewRequest] rejected, or the
    first statement of [Shutdown] on a server that has no [self.s]. *)
Theorem a_cleaner_never_kills_the_process (s : State) (acts : list action)
    (s' : State) :
  run s acts = Some s' → crashed s = None →
  (∀ now n, crashed s' = None → cleaners s' = S n →
     ∃ s'', step s' (CleanerRun now) = Some s'' ∧ crashed s'' = None
            ∧ db s'' = db s' ∧ cache s'' = cache s' ∧ cleaners s'' = n)
  ∧ (crashed s' ≠ None →
     ∃ acts0 a s0,
       acts = acts0 ++ [a] ∧ run s acts0 = Some s0 ∧ crashed s0 = None
       ∧ step s0 a = Some s'
       ∧ ((∃ e d rest,
             a = StoreRoutine (Output_value e)
             ∧ output s0 = DnsRecord_ d :: rest
             ∧ (e ≠ None
                ∨ ∃ v, Cache.Get (cache s0) (errorCountKey (DnsRecord.Uid d))
                       = Some v
                       ∧ ∀ n, v ≠ Cache.VInt64 n))
          ∨ (a = StoreRoutine Output_closed ∧ storeQuit s0 = true)
          ∨ (∃ i e net, a = CallbackDone i (Some e) net)
          ∨ (∃ err, a = InShutdown (s_Shutdown err) ∧ server s0 = None))).
Proof.
  intros Hrun Halive. split.
  - intros now n Halive' Hn. eexists. split.
    + unfold step. rewrite Halive', Hn, doClean_unchanged. reflexivity.
    + done.
  - intros Hdead.
    destruct (run_crash _ _ _ Hrun Halive Hdead)
      as (acts0 & a & s0 & -> & Hrun0 & Halive0 & Hstep).
    exists acts0, a, s0. split_and!; try done.
    by eapply step_crash.
Qed.

Lemma a_cleaner_never_kills_the_process_witness :
  ∃ s', run example.server0 example.bad_url = Some s'
        ∧ crashed s' ≠ None
        ∧ ∃ acts0 a s0,
            example.bad_url = acts0 ++ [a]
            ∧ run example.server0 acts0 = Some s0
            ∧ step s0 a = Some s'
            ∧ ∃ i e net, a = CallbackDone i (Some e) net.
Proof.
  eexists. split; [vm_compute; reflexivity|]. split; [discriminate|].
  match goal with |- ∃ acts0 a s0, _ ∧ _ ∧ step _ _ = Some ?s' ∧ _ =>
    destruct (proj2 (a_cleaner_never_kills_the_process example.server0
                       example.bad_url s' ltac:(vm_compute; reflexivity)
                       eq_refl) ltac:(discriminate))
      as (acts0 & a & s0 & Heq & Hrun0 & _ & Hstep & Hcause)
  end.
  exists acts0, a, s0. split; [exact Heq|]. split; [exact Hrun0|].
  split; [exact Hstep|].
  assert (a = CallbackDone 0 (Some "missing ']' in host") example.refused)
    as Ha.
  { unfold example.bad_url in Heq.
    change [Send (DnsRecord_ (example.dns 7 (example.clock 9 0 0) "http://[::1"));
            StoreRoutine (Output_value None);
            CallbackDone 0 (Some "missing ']' in host") example.refused]
      with ([Send (DnsRecord_ (example.dns 7 (example.clock 9 0 0) "http://[::1"));
             StoreRoutine (Output_value None)]
            ++ [CallbackDone 0 (Some "missing ']' in host") example.refused])
      in Heq.
    by apply app_inj_tail in Heq as [_ ->]. }
  rewrite Ha. eauto.
Defined.

(** ** Failures and shutdown *)

(** X16.  When the insert of a DNS record fails, the record has been taken off
    the stream, no row is inserted and no callback is started for it, and
    the process is dead: no action follows, so what is left on the stream
    is never stored. *)
Theorem insert_failure_is_fatal (s : State) (d : DnsRecord.t)
    (rest : list record) (e : string) :
  crashed s = None → routine s = Looping → output s = DnsRecord_ d :: rest →
  ∃ s', step s (StoreRoutine (Output_value (Some e))) = Some s'
        ∧ crashed s' ≠ None
        ∧ output s' = rest ∧ stored s' = stored s ∧ db s' = db s
        ∧ callbacks s' = callbacks s
        ∧ ∀ acts s'', run s' acts = Some s'' → acts = [].
Proof.
  intros Halive Hloop Hout. eexists. split.
  - unfold step, RunStoreRoutine. rewrite Halive, Hloop, Hout. reflexivity.
  - simpl. split_and!; try done. intros acts s''. by apply run_dead.
Qed.

Lemma insert_failure_is_fatal_witness :
  ∃ s', step (set_output [example.hook 0; example.hook 1] example.server0)
          (StoreRoutine (Output_value (Some "disk full"))) = Some s'
        ∧ crashed s' ≠ None
        ∧ output s' = [example.hook 1] ∧ stored s' = [].
Proof.
  destruct (insert_failure_is_fatal
              (set_output [example.hook 0; example.hook 1] example.server0)
              (example.dns 7 (example.clock 9 0 0) "http://hook.example.org/")
              [example.hook 1] "disk full")
    as (s' & Hstep & Hdead & Hout & Hst & _); [reflexivity..|].
  exists s'. by split_and!.
Defined.

(** X17.  On a started server whose stream is closed and drained, [Shutdown]
    runs to its end in four steps, returns what [self.s.Shutdown(ctx)]
    returned and closes the engine, without waiting for the goroutines of
    [self.wg]: the callbacks and cleaners that were running are still
    running afterwards. *)
Theorem Shutdown_does_not_wait_for_goroutines (s : State)
    (err : option string) :
  started s → output s = [] → output_closed s = true →
  ∃ s', run s [InShutdown (s_Shutdown err); StoreRoutine Output_closed;
                InShutdown recv_storeQuit; InShutdown orm_Close] = Some s'
        ∧ shutdown s' = ShutdownReturned err ∧ orm_closed s' = true
        ∧ callbacks s' = callbacks s ∧ cleaners s' = cleaners s
        ∧ wg s' = wg s.
Proof.
  intros (Hloop & Hquit & Hpc & Horm & Hsrv & Halive) Hout Hclosed.
  eexists. split.
  { unfold run, step, Shutdown, RunStoreRoutine.
    rewrite Halive, Hpc, Hsrv. simpl.
    rewrite Halive, Hloop, Hout, Hclosed, Hquit. simpl.
    rewrite Halive. simpl. rewrite Halive. reflexivity. }
  by split_and!.
Qed.

Lemma Shutdown_does_not_wait_for_goroutines_witness :
  ∃ s',
    run (set_output_closed true
           (set_callbacks [example.dns 7 (example.clock 9 0 0)
                             "http://hook.example.org/"]
              (set_wg 1 example.server0)))
      (example.shutdown_steps None) = Some s'
    ∧ shutdown s' = ShutdownReturned None ∧ orm_closed s' = true
    ∧ callbacks s' = [example.dns 7 (example.clock 9 0 0)
                        "http://hook.example.org/"]
    ∧ cleaners s' = 0%nat ∧ wg s' = 1.
Proof.
  apply (Shutdown_does_not_wait_for_goroutines
           (set_output_closed true
              (set_callbacks [example.dns 7 (example.clock 9 0 0)
                                "http://hook.example.org/"]
                 (set_wg 1 example.server0))) None).
  - by repeat split.
  - reflexivity.
  - reflexivity.
Defined.

(** X18.  [Run] sets [self.s] only when [net.Listen] has succeeded.  After a
    failed [Run] on a server that has none, no execution gives it one,
    [Shutdown] cannot get past its first statement, which kills the
    process in the dereference of [self.s], and the engine stays as it
    is.  After a [Run] that listens, that statement stops the server and
    goes on to wait for the store routine. *)
Theorem Shutdown_needs_a_listening_Run (s : State) (e : string)
    (acts : list action) (s' : State) (err : option string) :
  server s = None → shutdown s = NotCalled →
  run (Run (Some e) s).1 acts = Some s' →
  (Run (Some e) s).2 = Listen_failed e
  ∧ server s' = None ∧ shutdown s' = NotCalled
  ∧ orm_closed s' = orm_closed s
  ∧ (crashed s' = None →
     ∃ msg, step s' (InShutdown (s_Shutdown err)) = Some (crash msg s'))
  ∧ (crashed s = None →
     step (Run None s).1 (InShutdown (s_Shutdown err))
     = Some (set_shutdown (AwaitStoreQuit err)
               (set_server (Some false) (Run None s).1))).
Proof.
  intros Hsrv Hpc Hrun. simpl in Hrun. split; [done|].
  assert (server s' = None ∧ shutdown s' = NotCalled
          ∧ orm_closed s' = orm_closed s) as (Hsrv' & Hpc' & Horm').
  { revert Hsrv Hpc. revert s acts s' Hrun.
    apply (run_rel (λ s s', server s = None → shutdown s = NotCalled →
             server s' = None ∧ shutdown s' = NotCalled
             ∧ orm_closed s' = orm_closed s)).
    - done.
    - intros s1 s2 s3 H1 H2 Hs Hp.
      destruct (H1 Hs Hp) as (Hs2 & Hp2 & Ho2).
      destruct (H2 Hs2 Hp2) as (Hs3 & Hp3 & Ho3).
      split_and!; congruence.
    - apply step_without_server. }
  split_and!; try done.
  - intros Halive. eexists. unfold step, Shutdown.
    rewrite Halive, Hpc', Hsrv'. reflexivity.
  - intros Halive. unfold step, Shutdown. simpl. by rewrite Halive, Hpc.
Qed.

Lemma Shutdown_needs_a_listening_Run_witness :
  ∃ s', run (Run (Some "address already in use")
               (set_server None example.server0)).1
          example.both_variants = Some s'
        ∧ server s' = None
        ∧ ∃ msg, step s' (InShutdown (s_Shutdown None)) = Some (crash msg s').
Proof.
  eexists. split; [vm_compute; reflexivity|].
  match goal with |- server ?s' = None ∧ _ =>
    destruct (Shutdown_needs_a_listening_Run
                (set_server None example.server0) "address already in use"
                example.both_variants s' None)
      as (_ & Hsrv & _ & _ & Hcrash & _);
      [reflexivity|reflexivity|vm_compute; reflexivity|]
  end.
  split; [exact Hsrv|]. apply Hcrash. reflexivity.
Defined.

(** ** The routes of [Run] *)

(** X19.  Of the routes [Run] registers, every one under /api/data,
    /api/setting and /api/admin, and every one under /api/auth but the
    login, is guarded by [authHandler]; the routes under /api/admin run
    [authHandler] and then [verifyAdminPermission] before they answer;
    the routes under /app are guarded by [apiAuthHandler]; and the routes
    guarded by neither are the swagger pages, the login, the two payloads
    and the log of HTTP requests. *)
Theorem Run_guards_routes :
  Forall (λ rt,
      (under "/api/" rt →
       guarded_by Handler.authHandler rt
       ∨ (gin.method rt = "POST" ∧ gin.path rt = "/api/auth/login"))
      ∧ (under "/api/admin/" rt →
         ∃ h, gin.handlers rt
              = [Handler.Logger; Handler.Recovery; Handler.Serve;
                 Handler.authHandler; Handler.verifyAdminPermission; h])
      ∧ (under "/app/" rt → guarded_by Handler.apiAuthHandler rt)
      ∧ (guarded_by Handler.authHandler rt
         ∨ guarded_by Handler.apiAuthHandler rt
         ∨ gin.path rt ∈ ["/swagger/*any"; "/api/auth/login"; "/payload/xss";
                          "/payload/phprfi"; "/log/*any"]))
    (gin.routes Run_engine).
Proof.
  vm_compute gin.routes.
  repeat (apply Forall_cons; split;
          [split_and!;
           [vm_compute; (tauto || (intros _; eauto))..
           |first [left; vm_compute; exact I
                  |right; left; vm_compute; exact I
                  |do 2 right; set_solver]]|]).
  constructor.
Qed.

(** ** The cap is tested at dispatch only *)

Section pile_up.

Import retryablehttp.

Lemma set_output_output s : set_output (output s) s = s.
Proof. by destruct s. Qed.

Lemma run_sends s rcds :
  crashed s = None → output_closed s = false →
  run s (Send <$> rcds) = Some (set_output (output s ++ rcds) s).
Proof.
  revert s. induction rcds as [|rcd rcds IH]; intros s Halive Hopen; simpl.
  - by rewrite app_nil_r, set_output_output.
  - unfold step. rewrite Halive, Hopen. simpl.
    rewrite IH by done. simpl. by rewrite <- app_assoc.
Qed.

Lemma run_dispatches d n : ∀ s rest,
  DnsRecord.Callback d ≠ "" → 0 < DnsRecord.Uid d →
  crashed s = None → routine s = Looping →
  output s = replicate n (DnsRecord_ d) ++ rest →
  Cache.Get (cache s) (errorCountKey (DnsRecord.Uid d)) = None →
  ∃ s', run s (replicate n (StoreRoutine (Output_value None))) = Some s'
        ∧ crashed s' = None ∧ cache s' = cache s
        ∧ finished s' = finished s
        ∧ callbacks s' = callbacks s ++ replicate n d.
Proof.
  induction n as [|n IH]; intros s rest Hcb Hpos Halive Hloop Hout Hget; simpl.
  - exists s. by rewrite app_nil_r.
  - unfold step, RunStoreRoutine. rewrite Halive, Hloop, Hout. simpl.
    rewrite bool_decide_eq_true_2 by done. simpl. rewrite Hget.
    edestruct (IH (go_dnsCallBack d
                     (InsertOne (row_of d)
                        (set_output (replicate n (DnsRecord_ d) ++ rest) s))))
      as (s' & Hrun' & Ha & Hc & Hf & Hcbs'); [done..|].
    exists s'. split; [exact Hrun'|]. simpl in *.
    rewrite Hc, Hf, Hcbs', <- app_assoc. done.
Qed.

(** When no try gets through, the callback counts a failure. *)
Lemma dnsCallBack_refused msg rcd (c : gmap string Cache.value) :
  dnsCallBack None (λ _, TransportError msg) rcd c
  = Ok (Some {| Method := "POST"; URL := DnsRecord.Callback rcd;
                Body := None |},
        {| tries := 4;
           waits := [5 * time.Second; 10 * time.Second; 20 * time.Second];
           returned := DoError "giving up after RetryMax+1 attempts" |},
        Cache.IncrementInt64 c (errorCountKey (DnsRecord.Uid rcd)) 1).
Proof. reflexivity. Qed.

Lemma run_failures d msg n : ∀ s rest,
  crashed s = None → callbacks s = replicate n d ++ rest →
  ∃ s',
    run s (replicate n (CallbackDone 0 None (λ _, TransportError msg)))
    = Some s'
    ∧ finished s'
      = finished s
        ++ replicate n
             (d, Some {| Method := "POST"; URL := DnsRecord.Callback d;
                         Body := None |},
              DoError "giving up after RetryMax+1 attempts").
Proof.
  induction n as [|n IH]; intros s rest Halive Hcbs; simpl.
  - exists s. by rewrite app_nil_r.
  - unfold step. rewrite Halive, Hcbs. simpl.
    match goal with |- context [run ?s1 _] =>
      destruct (IH s1 rest) as (s' & Hrun' & Hf); [done..|]
    end.
    exists s'. split; [exact Hrun'|].
    rewrite Hf. simpl. by rewrite <- app_assoc.
Qed.

Lemma trailing_failures_replicate d req msg n log :
  trailing_failures (DnsRecord.Uid d) (log ++ replicate n (d, req, DoError msg))
  = (trailing_failures (DnsRecord.Uid d) log + n)%nat.
Proof.
  induction n as [|n IH]; [by rewrite app_nil_r, Nat.add_0_r|].
  rewrite replicate_S_end, app_assoc, trailing_failures_snoc, IH.
  rewrite bool_decide_eq_true_2 by done. lia.
Qed.

End pile_up.

(** X20.  The cap bounds what is dispatched, not the counter: when [n] records
    of a user are dispatched before any of their callbacks has failed,
    [n] failures take the counter to [n], however large [n] is. *)
Theorem FailureCounter_can_pass_the_cap (s : State) (d : DnsRecord.t)
    (n : nat) (msg : string) :
  crashed s = None → routine s = Looping → output_closed s = false →
  output s = [] → callbacks s = [] → finished s = [] →
  Cache.Get (cache s) (errorCountKey (DnsRecord.Uid d)) = None →
  DnsRecord.Callback d ≠ "" → 0 < DnsRecord.Uid d → Z.of_nat n < 2 ^ 63 →
  ∃ s', run s (example.pile_up d n msg) = Some s'
        ∧ FailureCounter (cache s') (DnsRecord.Uid d) = Z.of_nat n.
Proof.
  intros Halive Hloop Hopen Hout Hcbs Hfin Hget Hcb Hpos Hn.
  unfold example.pile_up.
  pose proof (run_sends s (replicate n (DnsRecord_ d)) Halive Hopen) as H1.
  rewrite Hout in H1. simpl in H1.
  destruct (run_dispatches d n (set_output (replicate n (DnsRecord_ d)) s) [])
    as (s2 & H2 & Halive2 & Hc2 & Hf2 & Hcbs2);
    [done|done|done|done|simpl; by rewrite app_nil_r|done|].
  simpl in Hcbs2, Hf2. rewrite Hcbs in Hcbs2. simpl in Hcbs2.
  destruct (run_failures d msg n s2 []) as (s3 & H3 & Hf3);
    [done|by rewrite app_nil_r|].
  rewrite Hf2, Hfin in Hf3. simpl in Hf3.
  assert (run s ((Send <$> replicate n (DnsRecord_ d))
                 ++ replicate n (StoreRoutine (Output_value None))
                 ++ replicate n
                      (CallbackDone 0 None
                         (λ _, retryablehttp.TransportError msg)))
          = Some s3) as Hrun.
  { rewrite run_app, H1. simpl. rewrite run_app, H2. simpl. done. }
  exists s3. split; [done|].
  assert (counter_agrees (DnsRecord.Uid d) s) as Hs
    by (unfold counter_agrees; by rewrite Hget, Hfin).
  rewrite (counter_agrees_FailureCounter (DnsRecord.Uid d) s3)
    by eauto using run_counter_agrees.
  rewrite Hf3.
  pose proof (trailing_failures_replicate d
                (Some {| retryablehttp.Method := "POST";
                         retryablehttp.URL := DnsRecord.Callback d;
                         retryablehttp.Body := None |})
                "giving up after RetryMax+1 attempts" n []) as Ht.
  simpl in Ht. rewrite Ht. apply wrap64_id. lia.
Qed.

Lemma FailureCounter_can_pass_the_cap_witness :
  ∃ s', run example.server0
          (example.pile_up
             (example.dns 7 (example.clock 9 0 0) "http://hook.example.org/")
             8 "giving up") = Some s'
        ∧ FailureCounter (cache s') 7 = 8.
Proof.
  apply (FailureCounter_can_pass_the_cap example.server0
           (example.dns 7 (example.clock 9 0 0) "http://hook.example.org/")
           8 "giving up"); try reflexivity.
  - discriminate.
Defined.
